(** * The benchmark page (src/app/page.tsx) and the evaluation engine contract

    A shallow embedding of the React page component [HomePage]: its state,
    its event handlers as state transformers and its derived values
    ([leaderboard], [geminiTop], [alignmentState], the rendered names).
    The modules [./lib/models] and [./lib/simulation] are imported by the
    page; what the page needs from them is taken as section variables, and
    the engine's documented contract is modelled separately in [Engine]. *)

From Stdlib Require Import List Bool Arith ZArith NArith QArith Lia Lqa.
From Stdlib Require Import String Ascii DecimalString Permutation Sorted.
Import ListNotations.

Set Implicit Arguments.

(** ** JavaScript strings

    A JavaScript string is a finite sequence of UTF-16 code units. *)

Module JS.

Definition jsstring := list N.

Definition lit (s : string) : jsstring :=
  map N_of_ascii (list_ascii_of_string s).

Definition jsstring_eq_dec : forall a b : jsstring, {a = b} + {a <> b} :=
  list_eq_dec N.eq_dec.

(** [===] on two strings. *)
Definition streq (a b : jsstring) : bool :=
  if jsstring_eq_dec a b then true else false.

(** ECMAScript WhiteSpace and LineTerminator code points, the ones
    [String.prototype.trim] strips: TAB, VT, FF, SP, NBSP, ZWNBSP, category
    Zs, and LF, CR, LS, PS. *)
Definition isWhiteSpace (c : N) : bool :=
  (N.eqb c 9 || N.eqb c 10 || N.eqb c 11 || N.eqb c 12 || N.eqb c 13
   || N.eqb c 32 || N.eqb c 160 || N.eqb c 5760
   || (N.leb 8192 c && N.leb c 8202)
   || N.eqb c 8232 || N.eqb c 8233 || N.eqb c 8239 || N.eqb c 8287
   || N.eqb c 12288 || N.eqb c 65279)%N.

Fixpoint trimStart (s : jsstring) : jsstring :=
  match s with
  | [] => []
  | c :: s' => if isWhiteSpace c then trimStart s' else s
  end.

Definition trimEnd (s : jsstring) : jsstring := rev (trimStart (rev s)).

Definition trim (s : jsstring) : jsstring := trimEnd (trimStart s).

(** Truthiness of a string: only the empty string is falsy. *)
Definition truthy (s : jsstring) : bool :=
  match s with [] => false | _ :: _ => true end.

(** [Array.prototype.includes] on an array of strings. *)
Definition includes (xs : list jsstring) (x : jsstring) : bool :=
  existsb (streq x) xs.

(** [Array.prototype.join]. *)
Fixpoint join (sep : jsstring) (xs : list jsstring) : jsstring :=
  match xs with
  | [] => []
  | [x] => x
  | x :: rest => x ++ sep ++ join sep rest
  end.

(** [a ?? b]. *)
Definition nullish {A} (a : option A) (b : A) : A :=
  match a with Some v => v | None => b end.

(** [Array.prototype.sort] with a comparator.  The comparator returns a
    number; a positive result puts its first argument after the second, and
    the sort is stable, so elements the comparator does not separate keep
    their input order.  For a consistent comparator the result is unique,
    and the insertion sort below computes it. *)
Section Sort.
Variable A : Type.
Variable cmp : A -> A -> Q.

Fixpoint insert (x : A) (l : list A) : list A :=
  match l with
  | [] => [x]
  | y :: l' =>
      if Qlt_le_dec 0 (cmp x y) then y :: insert x l' else x :: l
  end.

Definition sort (l : list A) : list A := fold_right insert [] l.
End Sort.

(** [String.prototype.startsWith]. *)
Fixpoint startsWith (s prefix : jsstring) : bool :=
  match prefix, s with
  | [], _ => true
  | _ :: _, [] => false
  | p :: prefix', c :: s' => N.eqb c p && startsWith s' prefix'
  end.

(** A non-negative integer in a template literal. *)
Definition natToString (n : nat) : jsstring :=
  lit (DecimalString.NilZero.string_of_uint (Nat.to_uint n)).

End JS.

Import JS.

(** ** The data model (./lib/types as the page uses it)

    Scores are JavaScript numbers; the engine's contract keeps them finite
    (in [0,10]), and they are modelled as rationals, on which the sign of
    [b - a] is the order of [a] and [b] as it is on finite doubles. *)

Module Model.
Record t := {
  id : jsstring;
  name : jsstring;
  vendor : jsstring;
  capabilities : list jsstring;
  modalitySupport : list jsstring;
  release : jsstring;
  description : jsstring }.
End Model.

Inductive Modality := ModText | ModMultimodal.

Module PromptPayload.
Record t := {
  text : jsstring;
  imageFileName : option jsstring;
  imageDataUrl : option jsstring;
  modality : Modality }.
End PromptPayload.

Module Metrics.
Record t := { quality : Q; clarity : Q; relevance : Q; accuracy : Q }.
End Metrics.

Module ModelResponse.
Record t := {
  modelId : jsstring;
  content : jsstring;
  highlights : list jsstring;
  modalitySupport : list jsstring }.
End ModelResponse.

Module CrossEvaluation.
Record t := {
  judgeModelId : jsstring;
  targetModelId : jsstring;
  overall : Q;
  metrics : Metrics.t;
  rationale : jsstring }.
End CrossEvaluation.

Module AggregatedScore.
Record t := {
  modelId : jsstring;
  meanMetrics : Metrics.t;
  overall : Q }.
End AggregatedScore.

Module GeminiRankingEntry.
Record t := {
  modelId : jsstring;
  placement : Z;
  confidence : Q;
  rationale : jsstring }.
End GeminiRankingEntry.

Module SimulationOutcome.
Record t := {
  responses : list ModelResponse.t;
  crossEvaluations : list CrossEvaluation.t;
  aggregates : list AggregatedScore.t;
  topThree : list AggregatedScore.t;
  geminiRanking : list GeminiRankingEntry.t }.
End SimulationOutcome.

Module ImageAttachment.
Record t := { name : jsstring; dataUrl : jsstring }.
End ImageAttachment.

(** The [File] picked in the image input, as far as the page reads it. *)
Module File.
Record t := { name : jsstring; type : jsstring }.
End File.

(** ** The page component (src/app/page.tsx) *)

Module Page.

Definition MIN_MODELS : nat := 4.
Definition MAX_MODELS : nat := 5.

(** The seven [useState] cells of [HomePage]. *)
Record State := {
  selected : list jsstring;
  promptText : jsstring;
  imageAttachment : option ImageAttachment.t;
  simulation : option SimulationOutcome.t;
  processing : bool;
  error : option jsstring;
  userChoice : option jsstring }.

Definition initial : State :=
  {| selected := []; promptText := []; imageAttachment := None;
     simulation := None; processing := false; error := None;
     userChoice := None |}.

Definition setSelected (f : list jsstring -> list jsstring) (st : State) :=
  {| selected := f (selected st); promptText := promptText st;
     imageAttachment := imageAttachment st; simulation := simulation st;
     processing := processing st; error := error st;
     userChoice := userChoice st |}.

Definition setPromptText (v : jsstring) (st : State) :=
  {| selected := selected st; promptText := v;
     imageAttachment := imageAttachment st; simulation := simulation st;
     processing := processing st; error := error st;
     userChoice := userChoice st |}.

Definition setImageAttachment (v : option ImageAttachment.t) (st : State) :=
  {| selected := selected st; promptText := promptText st;
     imageAttachment := v; simulation := simulation st;
     processing := processing st; error := error st;
     userChoice := userChoice st |}.

Definition setSimulation (v : option SimulationOutcome.t) (st : State) :=
  {| selected := selected st; promptText := promptText st;
     imageAttachment := imageAttachment st; simulation := v;
     processing := processing st; error := error st;
     userChoice := userChoice st |}.

Definition setProcessing (v : bool) (st : State) :=
  {| selected := selected st; promptText := promptText st;
     imageAttachment := imageAttachment st; simulation := simulation st;
     processing := v; error := error st; userChoice := userChoice st |}.

Definition setError (v : option jsstring) (st : State) :=
  {| selected := selected st; promptText := promptText st;
     imageAttachment := imageAttachment st; simulation := simulation st;
     processing := processing st; error := v; userChoice := userChoice st |}.

Definition setUserChoice (v : option jsstring) (st : State) :=
  {| selected := selected st; promptText := promptText st;
     imageAttachment := imageAttachment st; simulation := simulation st;
     processing := processing st; error := error st; userChoice := v |}.

(** The updater [handleToggleModel] hands to [setSelected]. *)
Definition toggle (modelId : jsstring) (prev : list jsstring) : list jsstring :=
  if includes prev modelId then
    filter (fun id => negb (streq id modelId)) prev
  else if (MAX_MODELS <=? List.length prev)%nat then prev
  else prev ++ [modelId].

Definition handleToggleModel (modelId : jsstring) (st : State) : State :=
  setSelected (toggle modelId) st.

Definition msgImageOnly : jsstring :=
  lit "Only image files are supported for visual prompts.".

(** [handleImageUpload]: the state after the handler, and the file whose read
    was started with [readAsDataURL], if any. *)
Definition handleImageUpload (file : option File.t) (st : State)
  : State * option File.t :=
  match file with
  | None => (setImageAttachment None st, None)
  | Some f =>
      if negb (startsWith (File.type f) (lit "image/")) then
        (setError (Some msgImageOnly) st, None)
      else (st, Some f)
  end.

(** [reader.onload]: [result] is the read's result when it is a string. *)
Definition onload (file : File.t) (result : option jsstring) (st : State)
  : State :=
  match result with
  | Some r =>
      setError None
        (setImageAttachment
           (Some {| ImageAttachment.name := File.name file;
                    ImageAttachment.dataUrl := r |}) st)
  | None => st
  end.

Definition resetAttachment (st : State) : State := setImageAttachment None st.

Definition msgTooFew : jsstring :=
  lit "Select at least " ++ natToString MIN_MODELS
    ++ lit " models to run a comparison.".

Definition msgTooMany : jsstring :=
  lit "You can compare at most " ++ natToString MAX_MODELS
    ++ lit " models at a time.".

Definition msgNoPrompt : jsstring :=
  lit "Enter a descriptive prompt to evaluate.".

Definition promptPayload (st : State) : PromptPayload.t :=
  {| PromptPayload.text := trim (promptText st);
     PromptPayload.imageFileName :=
       option_map ImageAttachment.name (imageAttachment st);
     PromptPayload.imageDataUrl :=
       option_map ImageAttachment.dataUrl (imageAttachment st);
     PromptPayload.modality :=
       match imageAttachment st with
       | Some _ => ModMultimodal
       | None => ModText
       end |}.

(** One invocation of the engine: its two arguments. *)
Definition EngineCall : Type := (list jsstring * PromptPayload.t)%type.

Section Handlers.

(** [simulateEvaluation] of ./lib/simulation: it returns an outcome or
    throws. *)
Variable Exn : Type.
Variable simulateEvaluation :
  list jsstring -> PromptPayload.t -> Exn + SimulationOutcome.t.

(** [handleSubmit]: the state once the handler's updates are applied, and
    the engine invocations the handler made.  When the engine throws, the
    handler stops there and the two updates queued before the call stand. *)
Definition handleSubmit (st : State) : State * list EngineCall :=
  if (List.length (selected st) <? MIN_MODELS)%nat then
    (setError (Some msgTooFew) st, [])
  else if (MAX_MODELS <? List.length (selected st))%nat then
    (setError (Some msgTooMany) st, [])
  else if negb (truthy (trim (promptText st))) then
    (setError (Some msgNoPrompt) st, [])
  else
    let st1 := setError None (setProcessing true st) in
    match simulateEvaluation (selected st) (promptPayload st) with
    | inr result =>
        (setProcessing false
           (setUserChoice None (setSimulation (Some result) st1)),
         [(selected st, promptPayload st)])
    | inl _ => (st1, [(selected st, promptPayload st)])
    end.

(** The events of the page and the transition each one makes. *)
Inductive Event :=
| ToggleModel (modelId : jsstring)
| PromptChange (value : jsstring)
| ImageUpload (file : option File.t)
| ImageLoaded (file : File.t) (result : option jsstring)
| ResetAttachment
| Submit
| Choose (modelId : jsstring).

Definition step (st : State) (e : Event) : State :=
  match e with
  | ToggleModel modelId => handleToggleModel modelId st
  | PromptChange value => setPromptText value st
  | ImageUpload file => fst (handleImageUpload file st)
  | ImageLoaded file result => onload file result st
  | ResetAttachment => resetAttachment st
  | Submit => fst (handleSubmit st)
  | Choose modelId => setUserChoice (Some modelId) st
  end.

Definition run (es : list Event) : State := fold_left step es initial.

End Handlers.

(** *** Derived values *)

Definition leaderboard (st : State) : list AggregatedScore.t :=
  match simulation st with
  | None => []
  | Some sim =>
      sort (fun a b => AggregatedScore.overall b - AggregatedScore.overall a)
        (SimulationOutcome.aggregates sim)
  end.

Definition crossEvaluationsByModel (st : State) (modelId : jsstring)
  : option (list CrossEvaluation.t) :=
  match simulation st with
  | None => None
  | Some sim =>
      Some (filter (fun item => streq (CrossEvaluation.targetModelId item) modelId)
              (SimulationOutcome.crossEvaluations sim))
  end.

Definition geminiTop (st : State) : option GeminiRankingEntry.t :=
  match simulation st with
  | None => None
  | Some sim =>
      find (fun item => (GeminiRankingEntry.placement item =? 1)%Z)
        (SimulationOutcome.geminiRanking sim)
  end.

(** [model?.name ?? rawId]. *)
Definition displayName (model : option Model.t) (rawId : jsstring) : jsstring :=
  nullish (option_map Model.name model) rawId.

Record AlignmentState := { aligned : bool; message : jsstring }.

Section Derived.

(** The catalog of ./lib/models. *)
Variable MODEL_OPTIONS : list Model.t.
Variable META_EVALUATOR_ID : jsstring.
Variable getModelById : jsstring -> option Model.t.

Definition selectableModels : list Model.t :=
  filter (fun model => negb (streq (Model.id model) META_EVALUATOR_ID))
    MODEL_OPTIONS.

Definition metaEvaluator : option Model.t := getModelById META_EVALUATOR_ID.

Definition metaName : jsstring := displayName metaEvaluator (lit "Gemini").

Definition alignmentState (st : State) : option AlignmentState :=
  match simulation st, userChoice st, geminiTop st with
  | Some _, Some userChoice, Some geminiTop =>
      if negb (truthy userChoice) then None
      else
        let aligned := streq userChoice (GeminiRankingEntry.modelId geminiTop) in
        let userModel := getModelById userChoice in
        let geminiModel := getModelById (GeminiRankingEntry.modelId geminiTop) in
        Some {| aligned := aligned;
                message :=
                  if aligned then
                    lit "Alignment confirmed. You and " ++ metaName
                      ++ lit " both favored " ++ displayName userModel userChoice
                      ++ lit "."
                  else
                    lit "Divergence detected. You preferred "
                      ++ displayName userModel userChoice ++ lit ", while "
                      ++ metaName ++ lit " selected "
                      ++ displayName geminiModel
                           (GeminiRankingEntry.modelId geminiTop)
                      ++ lit "." |}
  | _, _, _ => None
  end.

End Derived.

End Page.

(** ** What the page renders

    The JSX of [HomePage], reduced to the text each element shows.  Numbers
    reach the screen through [Number.prototype.toFixed] and, in a template
    literal, through the number's string conversion; both belong to the
    runtime and are section variables here. *)

Module View.
Import Page.

Definition bullet : jsstring := [8226%N].
Definition enDash : jsstring := [8211%N].

Record ModelCard := {
  mcKey : jsstring;
  mcChecked : bool;
  mcName : jsstring;
  mcMeta : jsstring;
  mcDescription : jsstring }.

Record LeaderboardRow := {
  lrKey : jsstring;
  lrRank : nat;
  lrModel : jsstring;
  lrQuality : jsstring;
  lrClarity : jsstring;
  lrRelevance : jsstring;
  lrAccuracy : jsstring;
  lrOverall : jsstring }.

Record PeerNote := { pnKey : jsstring; pnText : jsstring }.

Record ResponseCard := {
  rcKey : jsstring;
  rcTitle : jsstring;
  rcSubtitle : jsstring;
  rcTag : jsstring;
  rcContent : jsstring;
  rcHighlights : list jsstring;
  rcQuality : jsstring;
  rcClarity : jsstring;
  rcRelevance : jsstring;
  rcAccuracy : jsstring;
  rcPeerNotes : list PeerNote }.

Record RankCard := {
  rkKey : jsstring;
  rkLabel : Z;
  rkModel : jsstring;
  rkScore : jsstring;
  rkRationale : jsstring }.

Record RadioItem := {
  riKey : jsstring;
  riValue : jsstring;
  riChecked : bool;
  riLabel : jsstring }.

Record Results := {
  rsLeaderboard : list LeaderboardRow;
  rsResponses : list (option ResponseCard);
  rsRanking : list RankCard;
  rsRadios : list RadioItem;
  rsAlignment : option AlignmentState }.

(** [xs.map((x, index) => f x index)]. *)
Fixpoint mapi_from (A B : Type) (f : A -> nat -> B) (index : nat) (xs : list A)
  : list B :=
  match xs with
  | [] => []
  | x :: xs' => f x index :: mapi_from f (S index) xs'
  end.

Definition mapi (A B : Type) (f : A -> nat -> B) (xs : list A) : list B :=
  mapi_from f 0 xs.

Section Render.

Variable MODEL_OPTIONS : list Model.t.
Variable META_EVALUATOR_ID : jsstring.
Variable getModelById : jsstring -> option Model.t.
Variable toFixed : Q -> nat -> jsstring.
Variable numberToString : Q -> jsstring.

(** The check boxes of section 1, one per selectable model. *)
Definition modelCards (st : State) : list ModelCard :=
  map (fun model =>
         {| mcKey := Model.id model;
            mcChecked := includes (selected st) (Model.id model);
            mcName := Model.name model;
            mcMeta := Model.vendor model ++ lit " " ++ bullet ++ lit " "
                        ++ join (lit " + ") (Model.capabilities model)
                        ++ lit " " ++ bullet ++ lit " " ++ Model.release model;
            mcDescription := Model.description model |})
    (selectableModels MODEL_OPTIONS META_EVALUATOR_ID).

Definition leaderboardRows (st : State) : list LeaderboardRow :=
  mapi (fun entry index =>
          let model := getModelById (AggregatedScore.modelId entry) in
          let m := AggregatedScore.meanMetrics entry in
          {| lrKey := AggregatedScore.modelId entry;
             lrRank := index + 1;
             lrModel := displayName model (AggregatedScore.modelId entry);
             lrQuality := toFixed (Metrics.quality m) 1;
             lrClarity := toFixed (Metrics.clarity m) 1;
             lrRelevance := toFixed (Metrics.relevance m) 1;
             lrAccuracy := toFixed (Metrics.accuracy m) 1;
             lrOverall := toFixed (AggregatedScore.overall entry) 1 |})
    (leaderboard st).

Definition renderPeerNote (evaluation : CrossEvaluation.t) : PeerNote :=
  let judge := getModelById (CrossEvaluation.judgeModelId evaluation) in
  {| pnKey := CrossEvaluation.judgeModelId evaluation ++ lit "-"
                ++ numberToString (CrossEvaluation.overall evaluation);
     pnText := displayName judge (CrossEvaluation.judgeModelId evaluation)
                 ++ lit " scored "
                 ++ toFixed (CrossEvaluation.overall evaluation) 1
                 ++ lit "/10 " ++ enDash ++ lit " "
                 ++ CrossEvaluation.rationale evaluation |}.

Definition renderResponseCard (st : State) (response : ModelResponse.t)
    (aggregate : AggregatedScore.t) : ResponseCard :=
  let model := getModelById (ModelResponse.modelId response) in
  let peerEvaluations :=
    nullish (crossEvaluationsByModel st (ModelResponse.modelId response)) [] in
  let m := AggregatedScore.meanMetrics aggregate in
  {| rcKey := ModelResponse.modelId response;
     rcTitle := displayName model (ModelResponse.modelId response);
     rcSubtitle := nullish (option_map Model.vendor model) []
                     ++ lit " " ++ bullet ++ lit " Supports "
                     ++ join (lit ", ") (ModelResponse.modalitySupport response);
     rcTag := lit "Overall " ++ toFixed (AggregatedScore.overall aggregate) 1
                ++ lit "/10";
     rcContent := ModelResponse.content response;
     rcHighlights :=
       map (fun highlight => bullet ++ lit " " ++ highlight)
         (ModelResponse.highlights response);
     rcQuality := toFixed (Metrics.quality m) 1 ++ lit "/10";
     rcClarity := toFixed (Metrics.clarity m) 1 ++ lit "/10";
     rcRelevance := toFixed (Metrics.relevance m) 1 ++ lit "/10";
     rcAccuracy := toFixed (Metrics.accuracy m) 1 ++ lit "/10";
     rcPeerNotes := map renderPeerNote (firstn 3 peerEvaluations) |}.

(** [topThreeMap.get]: a [Map] built from [[modelId, item]] pairs keeps, for
    a repeated key, the last pair. *)
Definition topThreeMap_get (sim : SimulationOutcome.t) (modelId : jsstring)
  : option AggregatedScore.t :=
  find (fun item => streq (AggregatedScore.modelId item) modelId)
    (rev (SimulationOutcome.topThree sim)).

Definition findAggregate (sim : SimulationOutcome.t) (modelId : jsstring)
  : option AggregatedScore.t :=
  find (fun item => streq (AggregatedScore.modelId item) modelId)
    (SimulationOutcome.aggregates sim).

(** The response grid: [null] where no aggregate is found. *)
Definition responseCards (st : State) (sim : SimulationOutcome.t)
  : list (option ResponseCard) :=
  map (fun response =>
         let aggregate :=
           match findAggregate sim (ModelResponse.modelId response) with
           | Some a => Some a
           | None => topThreeMap_get sim (ModelResponse.modelId response)
           end in
         option_map (renderResponseCard st response) aggregate)
    (SimulationOutcome.responses sim).

Definition renderRankCard (sim : SimulationOutcome.t)
    (ranking : GeminiRankingEntry.t) : RankCard :=
  let model := getModelById (GeminiRankingEntry.modelId ranking) in
  let aggregate := topThreeMap_get sim (GeminiRankingEntry.modelId ranking) in
  {| rkKey := GeminiRankingEntry.modelId ranking;
     rkLabel := GeminiRankingEntry.placement ranking;
     rkModel := displayName model (GeminiRankingEntry.modelId ranking);
     rkScore := lit "Peer overall "
                  ++ nullish
                       (option_map
                          (fun a => toFixed (AggregatedScore.overall a) 1)
                          aggregate) enDash
                  ++ lit " / 10 " ++ bullet ++ lit " Confidence "
                  ++ toFixed (GeminiRankingEntry.confidence ranking) 2;
     rkRationale := GeminiRankingEntry.rationale ranking |}.

Definition renderRadio (st : State) (sim : SimulationOutcome.t)
    (response : ModelResponse.t) : RadioItem :=
  let model := getModelById (ModelResponse.modelId response) in
  {| riKey := ModelResponse.modelId response;
     riValue := ModelResponse.modelId response;
     riChecked :=
       match userChoice st with
       | Some c => streq c (ModelResponse.modelId response)
       | None => false
       end;
     riLabel := displayName model (ModelResponse.modelId response)
                  ++ lit " " ++ bullet ++ lit " Overall "
                  ++ toFixed
                       (nullish
                          (option_map AggregatedScore.overall
                             (findAggregate sim (ModelResponse.modelId response)))
                          0) 1 |}.

(** The block under [simulation &&]. *)
Definition renderResults (st : State) : option Results :=
  match simulation st with
  | None => None
  | Some sim =>
      Some {| rsLeaderboard := leaderboardRows st;
              rsResponses := responseCards st sim;
              rsRanking :=
                map (renderRankCard sim) (SimulationOutcome.geminiRanking sim);
              rsRadios :=
                map (renderRadio st sim) (SimulationOutcome.responses sim);
              rsAlignment :=
                alignmentState META_EVALUATOR_ID getModelById st |}
  end.

End Render.

End View.

(** ** The engine's contract (./lib/simulation, ./lib/models)

    The page imports [simulateEvaluation], [MODEL_OPTIONS], [getModelById]
    from modules whose text is not part of the sources at hand.  [Engine]
    follows the specification of these modules, sections 4 to 7. *)

Module Engine.

Inductive EngineError := InvalidSelection | InvalidPrompt.

(** What an implementation could read besides its arguments: the wall
    clock ([Date.now]) and the unseeded generator ([Math.random]). *)
Record Ambient := { now : Z; random : nat -> Q }.

Fixpoint hasDuplicates (ids : list jsstring) : bool :=
  match ids with
  | [] => false
  | id :: rest => includes rest id || hasDuplicates rest
  end.

(** Lexicographic order on code units, the order of [<] on strings. *)
Fixpoint lexCompare (a b : jsstring) : comparison :=
  match a, b with
  | [], [] => Eq
  | [], _ :: _ => Lt
  | _ :: _, [] => Gt
  | x :: a', y :: b' =>
      match N.compare x y with
      | Eq => lexCompare a' b'
      | c => c
      end
  end.

(** Modelled from the spec: the ranking order of section 4.4, which is
    part of the missing ./lib/simulation: descending [overall], then higher
    mean [accuracy], then lexicographic model id.  A positive result puts
    [a] after [b]. *)
Definition rankCompare (a b : AggregatedScore.t) : Q :=
  let d := AggregatedScore.overall b - AggregatedScore.overall a in
  if negb (Qeq_bool d 0) then d
  else
    let d' := Metrics.accuracy (AggregatedScore.meanMetrics b)
              - Metrics.accuracy (AggregatedScore.meanMetrics a) in
    if negb (Qeq_bool d' 0) then d'
    else
      match lexCompare (AggregatedScore.modelId a) (AggregatedScore.modelId b) with
      | Lt => -1
      | Eq => 0
      | Gt => 1
      end.

Definition sumQ (xs : list Q) : Q := fold_right Qplus 0 xs.

(** Arithmetic mean, with the defensive default 0 on no values. *)
Definition meanQ (xs : list Q) : Q :=
  match xs with
  | [] => 0
  | _ :: _ => sumQ xs / inject_Z (Z.of_nat (List.length xs))
  end.

Section Contract.

Variable MODEL_OPTIONS : list Model.t.

(** Section 4.2 leaves the templates open: content and highlights are
    functions of the model and the prompt. *)
Variable synthContent : Model.t -> PromptPayload.t -> jsstring.
Variable synthHighlights : Model.t -> PromptPayload.t -> list jsstring.

(** Section 4.3 leaves the scoring open: metrics and rationale are functions
    of the judge id, the target id and the target's content; [overall] is a
    combination of the four metrics with fixed weights. *)
Variable judgeMetrics : jsstring -> jsstring -> jsstring -> Metrics.t.
Variable judgeRationale : jsstring -> jsstring -> jsstring -> jsstring.
Variable weights : Metrics.t.

(** Section 4.5 leaves the meta-evaluator's rescoring open. *)
Variable metaRank :
  list AggregatedScore.t -> list ModelResponse.t -> PromptPayload.t ->
  list GeminiRankingEntry.t.

(** Modelled from the spec: [getModelById] of the missing ./lib/models, a
    pure lookup over the static catalog (section 4.1). *)
Definition getModelById (id : jsstring) : option Model.t :=
  find (fun model => streq (Model.id model) id) MODEL_OPTIONS.

(** Modelled from the spec: the Response Synthesizer of the missing
    ./lib/simulation (section 4.2): one response per id, in input order; an
    unknown id fails the whole call. *)
Fixpoint synthesizeResponses (ids : list jsstring) (prompt : PromptPayload.t)
  : option (list ModelResponse.t) :=
  match ids with
  | [] => Some []
  | id :: rest =>
      match getModelById id, synthesizeResponses rest prompt with
      | Some model, Some responses =>
          Some ({| ModelResponse.modelId := id;
                   ModelResponse.content := synthContent model prompt;
                   ModelResponse.highlights := synthHighlights model prompt;
                   ModelResponse.modalitySupport := Model.modalitySupport model |}
                  :: responses)
      | _, _ => None
      end
  end.

Definition weightedOverall (m : Metrics.t) : Q :=
  Metrics.quality weights * Metrics.quality m
  + Metrics.clarity weights * Metrics.clarity m
  + Metrics.relevance weights * Metrics.relevance m
  + Metrics.accuracy weights * Metrics.accuracy m.

Definition evaluate (judge target : ModelResponse.t) : CrossEvaluation.t :=
  let j := ModelResponse.modelId judge in
  let t := ModelResponse.modelId target in
  let m := judgeMetrics j t (ModelResponse.content target) in
  {| CrossEvaluation.judgeModelId := j;
     CrossEvaluation.targetModelId := t;
     CrossEvaluation.overall := weightedOverall m;
     CrossEvaluation.metrics := m;
     CrossEvaluation.rationale :=
       judgeRationale j t (ModelResponse.content target) |}.

(** Modelled from the spec: the Cross-Evaluation Matrix Builder of the
    missing ./lib/simulation (section 4.3): a judgment for every ordered
    pair (judge, target) of the responses with judge different from
    target. *)
Definition buildCrossEvaluations (responses : list ModelResponse.t)
  : list CrossEvaluation.t :=
  flat_map
    (fun judge =>
       map (evaluate judge)
         (filter
            (fun target =>
               negb (streq (ModelResponse.modelId target)
                       (ModelResponse.modelId judge)))
            responses))
    responses.

(** Modelled from the spec: the Aggregator of the missing ./lib/simulation
    (section 4.4): per target id, the mean of each metric and of [overall]
    over the evaluations that target it. *)
Definition aggregateFor (evaluations : list CrossEvaluation.t) (id : jsstring)
  : AggregatedScore.t :=
  let incoming :=
    filter (fun e => streq (CrossEvaluation.targetModelId e) id) evaluations in
  let mean f := meanQ (map (fun e => f (CrossEvaluation.metrics e)) incoming) in
  {| AggregatedScore.modelId := id;
     AggregatedScore.meanMetrics :=
       {| Metrics.quality := mean Metrics.quality;
          Metrics.clarity := mean Metrics.clarity;
          Metrics.relevance := mean Metrics.relevance;
          Metrics.accuracy := mean Metrics.accuracy |};
     AggregatedScore.overall := meanQ (map CrossEvaluation.overall incoming) |}.

Definition selectionOk (ids : list jsstring) : bool :=
  (4 <=? List.length ids)%nat && (List.length ids <=? 5)%nat
  && negb (hasDuplicates ids)
  && forallb (fun id => match getModelById id with Some _ => true | None => false end)
       ids.

Definition promptOk (prompt : PromptPayload.t) : bool :=
  truthy (trim (PromptPayload.text prompt)).

(** Modelled from the spec: [simulateEvaluation] of the missing
    ./lib/simulation (sections 2, 6 and 7): validation, then the pipeline
    synthesizer, matrix builder, aggregator, meta-evaluator ranker.  The
    ambient state is at hand and never read. *)
Definition simulateEvaluation (env : Ambient) (selectedModelIds : list jsstring)
    (prompt : PromptPayload.t) : EngineError + SimulationOutcome.t :=
  if negb (selectionOk selectedModelIds) then inl InvalidSelection
  else if negb (promptOk prompt) then inl InvalidPrompt
  else
    match synthesizeResponses selectedModelIds prompt with
    | None => inl InvalidSelection
    | Some responses =>
        let crossEvaluations := buildCrossEvaluations responses in
        let aggregates := map (aggregateFor crossEvaluations) selectedModelIds in
        let topThree := firstn 3 (sort rankCompare aggregates) in
        inr {| SimulationOutcome.responses := responses;
               SimulationOutcome.crossEvaluations := crossEvaluations;
               SimulationOutcome.aggregates := aggregates;
               SimulationOutcome.topThree := topThree;
               SimulationOutcome.geminiRanking :=
                 metaRank topThree responses prompt |}
    end.

End Contract.

End Engine.

(** ** The events the rendered page offers

    An event reaches its handler through an element of the JSX: a check box
    exists per selectable model, the Remove button with an attachment only,
    the radio items under [simulation &&] and one per response; the submit
    button is disabled while [processing]; a [FileReader] is created only
    for a file that passed the type test. *)

Module UI.

Section Enabled.

Variable Exn : Type.
Variable simulateEvaluation :
  list jsstring -> PromptPayload.t -> Exn + SimulationOutcome.t.
Variable MODEL_OPTIONS : list Model.t.
Variable META_EVALUATOR_ID : jsstring.

Definition enabled (st : Page.State) (e : Page.Event) : bool :=
  match e with
  | Page.ToggleModel modelId =>
      includes
        (map Model.id (Page.selectableModels MODEL_OPTIONS META_EVALUATOR_ID))
        modelId
  | Page.PromptChange _ => true
  | Page.ImageUpload _ => true
  | Page.ImageLoaded file _ => startsWith (File.type file) (lit "image/")
  | Page.ResetAttachment =>
      match Page.imageAttachment st with Some _ => true | None => false end
  | Page.Submit => negb (Page.processing st)
  | Page.Choose modelId =>
      match Page.simulation st with
      | Some sim =>
          includes
            (map ModelResponse.modelId (SimulationOutcome.responses sim))
            modelId
      | None => false
      end
  end.

(** The states a user can bring the page to. *)
Inductive reachable : Page.State -> Prop :=
| reach_initial : reachable Page.initial
| reach_step (st : Page.State) (e : Page.Event) :
    reachable st -> enabled st e = true ->
    reachable (Page.step simulateEvaluation st e).

End Enabled.

End UI.

(** ** Properties of the leaderboard and of the matrix *)

(** The order the specification gives the leaderboard (section 4.4), read
    on a list: no later entry beats an earlier one in the ranking order. *)
Definition rankedBySpec (l : list AggregatedScore.t) : Prop :=
  forall pre a mid b post,
    l = pre ++ a :: mid ++ b :: post -> Engine.rankCompare a b <= 0.

(** Among entries of equal [overall], the one of higher mean accuracy comes
    earlier. *)
Definition tiesByAccuracy (l : list AggregatedScore.t) : Prop :=
  forall pre a mid b post,
    l = pre ++ a :: mid ++ b :: post ->
    AggregatedScore.overall a == AggregatedScore.overall b ->
    Metrics.accuracy (AggregatedScore.meanMetrics b)
      <= Metrics.accuracy (AggregatedScore.meanMetrics a).

(** Descending by [overall]. *)
Definition byOverall (a b : AggregatedScore.t) : Prop :=
  AggregatedScore.overall b <= AggregatedScore.overall a.

Definition sameOverall (v : Q) (a : AggregatedScore.t) : bool :=
  Qeq_bool (AggregatedScore.overall a) v.

(** The (judge, target) pair of a cross-evaluation, and the ordered pairs of
    distinct elements of a list of ids. *)
Definition pairOf (e : CrossEvaluation.t) : jsstring * jsstring :=
  (CrossEvaluation.judgeModelId e, CrossEvaluation.targetModelId e).

Definition pairsWith (judges targets : list jsstring)
  : list (jsstring * jsstring) :=
  flat_map
    (fun j => map (pair j) (filter (fun t => negb (streq t j)) targets))
    judges.

(** The name on display for a model id: the catalog name when the lookup
    finds the model, the raw id when it does not. *)
Definition showsName (getModelById : jsstring -> option Model.t)
    (rawId shown : jsstring) : Prop :=
  match getModelById rawId with
  | Some model => shown = Model.name model
  | None => shown = rawId
  end.

(** ** Sample data *)

Module Examples.

Definition mkModel (id name : string) : Model.t :=
  {| Model.id := lit id; Model.name := lit name; Model.vendor := lit "Lab";
     Model.capabilities := [lit "text"; lit "vision"];
     Model.modalitySupport := [lit "text"; lit "image"];
     Model.release := lit "2024"; Model.description := lit "A model." |}.

Definition catalog : list Model.t :=
  [ mkModel "model-a" "Model A"; mkModel "model-b" "Model B";
    mkModel "model-c" "Model C"; mkModel "meta" "Meta Judge";
    mkModel "model-d" "Model D"; mkModel "model-e" "Model E" ].

Definition metaId : jsstring := lit "meta".

Definition four : list jsstring :=
  [lit "model-a"; lit "model-b"; lit "model-c"; lit "model-d"].

Definition env0 : Engine.Ambient :=
  {| Engine.now := 0; Engine.random := fun _ => 0 |}.

Definition qlen (s : jsstring) : Q := inject_Z (Z.of_nat (List.length s)).

Definition sampleMetrics (judge target content : jsstring) : Metrics.t :=
  {| Metrics.quality := qlen judge; Metrics.clarity := qlen target;
     Metrics.relevance := 5; Metrics.accuracy := qlen content / 4 |}.

Definition equalWeights : Metrics.t :=
  {| Metrics.quality := 1 # 4; Metrics.clarity := 1 # 4;
     Metrics.relevance := 1 # 4; Metrics.accuracy := 1 # 4 |}.

Definition sampleRank (topThree : list AggregatedScore.t)
    (_ : list ModelResponse.t) (_ : PromptPayload.t)
  : list GeminiRankingEntry.t :=
  View.mapi
    (fun a index =>
       {| GeminiRankingEntry.modelId := AggregatedScore.modelId a;
          GeminiRankingEntry.placement := Z.of_nat (index + 1);
          GeminiRankingEntry.confidence := 1 # 2;
          GeminiRankingEntry.rationale := lit "ranked" |})
    topThree.

Definition engineWith
    (metrics : jsstring -> jsstring -> jsstring -> Metrics.t)
    (env : Engine.Ambient)
  : list jsstring -> PromptPayload.t -> Engine.EngineError + SimulationOutcome.t :=
  Engine.simulateEvaluation catalog
    (fun model prompt => Model.name model ++ lit ": " ++ PromptPayload.text prompt)
    (fun model _ => [Model.vendor model; Model.release model])
    metrics
    (fun judge target _ => judge ++ lit " on " ++ target)
    equalWeights sampleRank env.

Definition engine : Engine.Ambient ->
  list jsstring -> PromptPayload.t -> Engine.EngineError + SimulationOutcome.t :=
  engineWith sampleMetrics.

Definition textPrompt : PromptPayload.t :=
  {| PromptPayload.text := lit "Summarize quarterly earnings";
     PromptPayload.imageFileName := None;
     PromptPayload.imageDataUrl := None;
     PromptPayload.modality := ModText |}.

Definition chart : ImageAttachment.t :=
  {| ImageAttachment.name := lit "chart.png";
     ImageAttachment.dataUrl := lit "data:image/png;base64,AAAA" |}.

Definition stBlank : Page.State :=
  {| Page.selected := four; Page.promptText := lit "   ";
     Page.imageAttachment := None; Page.simulation := None;
     Page.processing := false; Page.error := None; Page.userChoice := None |}.

Definition stFew : Page.State :=
  {| Page.selected := [lit "model-a"]; Page.promptText := lit "hello";
     Page.imageAttachment := None; Page.simulation := None;
     Page.processing := false; Page.error := None; Page.userChoice := None |}.

Definition stReady : Page.State :=
  {| Page.selected := four;
     Page.promptText := lit "  Summarize quarterly earnings ";
     Page.imageAttachment := Some chart; Page.simulation := None;
     Page.processing := false; Page.error := None;
     Page.userChoice := Some (lit "model-a") |}.

(** A scoring under which two targets tie on [overall] with different
    accuracy: with equal weights, (5,7,7,9) and (9,7,7,5) both weigh 7. *)
Definition tieMetrics (judge target content : jsstring) : Metrics.t :=
  if streq target (lit "model-a") then
    {| Metrics.quality := 5; Metrics.clarity := 7; Metrics.relevance := 7;
       Metrics.accuracy := 9 |}
  else if streq target (lit "model-b") then
    {| Metrics.quality := 9; Metrics.clarity := 7; Metrics.relevance := 7;
       Metrics.accuracy := 5 |}
  else
    {| Metrics.quality := 6; Metrics.clarity := 6; Metrics.relevance := 6;
       Metrics.accuracy := 6 |}.

Definition tieEngine : Engine.Ambient ->
  list jsstring -> PromptPayload.t -> Engine.EngineError + SimulationOutcome.t :=
  engineWith tieMetrics.

Definition stTieReady : Page.State :=
  {| Page.selected :=
       [lit "model-b"; lit "model-a"; lit "model-c"; lit "model-d"];
     Page.promptText := lit "Rank these";
     Page.imageAttachment := None; Page.simulation := None;
     Page.processing := false; Page.error := None; Page.userChoice := None |}.

(** The page after that submission and the user's choice of model-a. *)
Definition stTie : Page.State :=
  Page.setUserChoice (Some (lit "model-a"))
    (fst (Page.handleSubmit (tieEngine env0) stTieReady)).

Definition catalogLookup (id : jsstring) : option Model.t :=
  Engine.getModelById catalog id.

(** A lookup that knows the first catalog entry only. *)
Definition partialLookup (id : jsstring) : option Model.t :=
  Engine.getModelById (firstn 1 catalog) id.

(** [Number.prototype.toFixed] on a rational of magnitude below 10^21: the
    integer nearest to [q * 10^digits], the larger one on a tie, written in
    decimal with at least one digit before the point. *)
Definition showFixed (q : Q) (digits : nat) : jsstring :=
  let a := Z.abs (Qnum q) in
  let d := Zpos (Qden q) in
  let n := ((2 * a * 10 ^ Z.of_nat digits + d) / (2 * d))%Z in
  let m := natToString (Z.to_nat n) in
  let m := repeat 48%N (S digits - List.length m) ++ m in
  let k := List.length m in
  let body :=
    match digits with
    | O => m
    | S _ => firstn (k - digits) m ++ lit "." ++ skipn (k - digits) m
    end in
  (if (Qnum q <? 0)%Z then lit "-" else []) ++ body.

End Examples.

(** ** More sample data *)

Module Samples.

Definition emptyOutcome : SimulationOutcome.t :=
  {| SimulationOutcome.responses := [];
     SimulationOutcome.crossEvaluations := [];
     SimulationOutcome.aggregates := [];
     SimulationOutcome.topThree := [];
     SimulationOutcome.geminiRanking := [] |}.

(** An engine that always returns. *)
Definition quietEngine (_ : list jsstring) (_ : PromptPayload.t)
  : Empty_set + SimulationOutcome.t :=
  inr emptyOutcome.

Definition photo : File.t :=
  {| File.name := lit "photo.png"; File.type := lit "image/png" |}.

Definition agg (id : string) (overall : Q) : AggregatedScore.t :=
  {| AggregatedScore.modelId := lit id;
     AggregatedScore.meanMetrics :=
       {| Metrics.quality := overall; Metrics.clarity := overall;
          Metrics.relevance := overall; Metrics.accuracy := overall |};
     AggregatedScore.overall := overall |}.

Definition resp (id : string) : ModelResponse.t :=
  {| ModelResponse.modelId := lit id; ModelResponse.content := lit "text";
     ModelResponse.highlights := [lit "h"];
     ModelResponse.modalitySupport := [lit "text"] |}.

Definition judged (judge target : string) : CrossEvaluation.t :=
  {| CrossEvaluation.judgeModelId := lit judge;
     CrossEvaluation.targetModelId := lit target;
     CrossEvaluation.overall := 7;
     CrossEvaluation.metrics :=
       {| Metrics.quality := 7; Metrics.clarity := 7;
          Metrics.relevance := 7; Metrics.accuracy := 7 |};
     CrossEvaluation.rationale := lit "fine" |}.

Definition ranked (id : string) (placement : Z) : GeminiRankingEntry.t :=
  {| GeminiRankingEntry.modelId := lit id;
     GeminiRankingEntry.placement := placement;
     GeminiRankingEntry.confidence := 9 # 10;
     GeminiRankingEntry.rationale := lit "why" |}.

(** Five responses; model-a is judged by the four others; model-e has an
    aggregate in [topThree] only, model-d in neither list; the ranking names
    a model outside [topThree]; [aggregates] is already in ranking order. *)
Definition simOdd : SimulationOutcome.t :=
  {| SimulationOutcome.responses :=
       [resp "model-a"; resp "model-b"; resp "model-c"; resp "model-d";
        resp "model-e"];
     SimulationOutcome.crossEvaluations :=
       [judged "model-b" "model-a"; judged "model-a" "model-b";
        judged "model-c" "model-a"; judged "model-d" "model-a";
        judged "model-e" "model-a"];
     SimulationOutcome.aggregates :=
       [agg "model-a" 9; agg "model-b" 8; agg "model-c" 8];
     SimulationOutcome.topThree :=
       [agg "model-a" 9; agg "model-e" 3; agg "model-e" 4];
     SimulationOutcome.geminiRanking :=
       [ranked "model-a" 1; ranked "model-d" 2] |}.

Definition stOdd : Page.State :=
  {| Page.selected := Examples.four; Page.promptText := lit "again";
     Page.imageAttachment := None; Page.simulation := Some simOdd;
     Page.processing := false; Page.error := None;
     Page.userChoice := Some (lit "model-b") |}.

End Samples.

(** The guard of [handleSubmit], read off its three early returns. *)
Definition accepts (st : Page.State) : Prop :=
  (Page.MIN_MODELS <= List.length (Page.selected st) <= Page.MAX_MODELS)%nat
  /\ trim (Page.promptText st) <> [].

(** * Proofs *)

Unset Implicit Arguments.

(** ** Strings *)

Lemma streq_true (a b : jsstring) : streq a b = true <-> a = b.
Proof.
  unfold streq. destruct (jsstring_eq_dec a b); split; congruence.
Qed.

Lemma streq_false (a b : jsstring) : streq a b = false <-> a <> b.
Proof.
  unfold streq. destruct (jsstring_eq_dec a b); split; congruence.
Qed.

Lemma streq_refl (a : jsstring) : streq a a = true.
Proof. now apply streq_true. Qed.

Lemma streq_sym (a b : jsstring) : streq a b = streq b a.
Proof.
  destruct (streq b a) eqn:E.
  - apply streq_true in E. subst. apply streq_refl.
  - apply streq_false in E. apply streq_false. congruence.
Qed.

Lemma includes_In (xs : list jsstring) (x : jsstring) :
  includes xs x = true <-> In x xs.
Proof.
  unfold includes. rewrite existsb_exists. split.
  - intros (y & Hy & E). apply streq_true in E. now subst.
  - intros H. exists x. split; [assumption | apply streq_refl].
Qed.

Lemma includes_not_In (xs : list jsstring) (x : jsstring) :
  includes xs x = false <-> ~ In x xs.
Proof.
  rewrite <- includes_In. destruct (includes xs x); split; congruence.
Qed.

Lemma trimStart_nil_iff (s : jsstring) :
  trimStart s = [] <-> forallb isWhiteSpace s = true.
Proof.
  induction s as [|c s IH]; simpl.
  - tauto.
  - destruct (isWhiteSpace c); simpl.
    + exact IH.
    + split; discriminate.
Qed.

Lemma trimStart_suffix (s : jsstring) :
  exists pre, s = pre ++ trimStart s /\ forallb isWhiteSpace pre = true.
Proof.
  induction s as [|c s (pre & E & W)]; simpl.
  - now exists [].
  - destruct (isWhiteSpace c) eqn:Hc.
    + exists (c :: pre). simpl. rewrite Hc, W. split; [now f_equal | reflexivity].
    + now exists [].
Qed.

Lemma forallb_rev (A : Type) (p : A -> bool) (l : list A) :
  forallb p (rev l) = forallb p l.
Proof.
  induction l as [|x l IH]; simpl; [reflexivity|].
  rewrite forallb_app, IH. simpl. rewrite andb_true_r. apply andb_comm.
Qed.

Lemma trimEnd_nil_iff (s : jsstring) :
  trimEnd s = [] <-> forallb isWhiteSpace s = true.
Proof.
  unfold trimEnd. rewrite <- (forallb_rev N isWhiteSpace s), <- trimStart_nil_iff.
  split; intros H.
  - apply (f_equal (@rev N)) in H. now rewrite rev_involutive in H.
  - now rewrite H.
Qed.

(** The trimmed text is empty exactly when the text holds white space only
    (the empty text included). *)
Lemma trim_nil_iff (s : jsstring) :
  trim s = [] <-> forallb isWhiteSpace s = true.
Proof.
  unfold trim. rewrite trimEnd_nil_iff.
  destruct (trimStart_suffix s) as (pre & E & W). split; intros H.
  - rewrite E, forallb_app, W, H. reflexivity.
  - rewrite E, forallb_app in H. now apply andb_true_iff in H.
Qed.

(** What [trim] returns neither starts nor ends with white space. *)
Lemma trimStart_head (s : jsstring) (c : N) (r : jsstring) :
  trimStart s = c :: r -> isWhiteSpace c = false.
Proof.
  induction s as [|x s IH]; simpl; [discriminate|].
  destruct (isWhiteSpace x) eqn:Hx; [exact IH|].
  intros E. injection E as -> _. exact Hx.
Qed.

Lemma trimStart_idem (s : jsstring) : trimStart (trimStart s) = trimStart s.
Proof.
  destruct (trimStart s) as [|c r] eqn:E; [reflexivity|].
  simpl. now rewrite (trimStart_head _ _ _ E).
Qed.

Lemma trimStart_app_keep (s t : jsstring) :
  trimStart s <> [] -> trimStart (s ++ t) = trimStart s ++ t.
Proof.
  induction s as [|c s IH]; simpl; [congruence|].
  destruct (isWhiteSpace c); [exact IH | reflexivity].
Qed.

Lemma truthy_false_iff (s : jsstring) : truthy s = false <-> s = [].
Proof. destruct s; simpl; split; congruence. Qed.

Lemma truthy_true_iff (s : jsstring) : truthy s = true <-> s <> [].
Proof. destruct s; simpl; split; congruence. Qed.

(** ** Selecting models *)

Lemma toggle_selected (modelId : jsstring) (prev : list jsstring) :
  In modelId prev ->
  Page.toggle modelId prev = filter (fun id => negb (streq id modelId)) prev.
Proof.
  intros H. unfold Page.toggle. apply includes_In in H. now rewrite H.
Qed.

Lemma toggle_removes (modelId : jsstring) (prev : list jsstring) :
  In modelId prev -> ~ In modelId (Page.toggle modelId prev).
Proof.
  intros H. rewrite (toggle_selected _ _ H), filter_In.
  intros [_ E]. now rewrite streq_refl in E.
Qed.

Lemma filter_out_length (modelId : jsstring) (prev : list jsstring) :
  NoDup prev -> In modelId prev ->
  S (List.length (filter (fun id => negb (streq id modelId)) prev))
  = List.length prev.
Proof.
  induction 1 as [|x l Hx Hl IH]; simpl; [tauto|].
  intros [-> | Hin].
  - rewrite streq_refl. simpl. f_equal.
    clear IH. induction l as [|y l IH]; simpl; [reflexivity|].
    destruct (streq y modelId) eqn:E.
    + apply streq_true in E. subst. exfalso. apply Hx. now left.
    + simpl. f_equal. apply IH.
      * intros H. apply Hx. now right.
      * now inversion Hl.
  - destruct (streq x modelId) eqn:E.
    + apply streq_true in E. now subst.
    + simpl. f_equal. now apply IH.
Qed.

Lemma toggle_full (modelId : jsstring) (prev : list jsstring) :
  ~ In modelId prev -> List.length prev = Page.MAX_MODELS ->
  Page.toggle modelId prev = prev.
Proof.
  intros H L. unfold Page.toggle. apply includes_not_In in H.
  rewrite H, L. reflexivity.
Qed.

Lemma toggle_adds (modelId : jsstring) (prev : list jsstring) :
  ~ In modelId prev -> (List.length prev < Page.MAX_MODELS)%nat ->
  Page.toggle modelId prev = prev ++ [modelId].
Proof.
  intros H L. unfold Page.toggle. apply includes_not_In in H. rewrite H.
  destruct (Nat.leb_spec Page.MAX_MODELS (List.length prev)); [lia | reflexivity].
Qed.

Lemma filter_length_le (A : Type) (p : A -> bool) (l : list A) :
  (List.length (filter p l) <= List.length l)%nat.
Proof.
  induction l as [|x l IH]; simpl; [lia|]. destruct (p x); simpl; lia.
Qed.

(** One toggle keeps the selection duplicate-free and within the cap. *)
Lemma toggle_invariant (modelId : jsstring) (prev : list jsstring) :
  NoDup prev /\ (List.length prev <= Page.MAX_MODELS)%nat ->
  NoDup (Page.toggle modelId prev)
  /\ (List.length (Page.toggle modelId prev) <= Page.MAX_MODELS)%nat.
Proof.
  intros [ND L]. unfold Page.toggle.
  destruct (includes prev modelId) eqn:I.
  - split; [now apply NoDup_filter|].
    pose proof (filter_length_le _ (fun id => negb (streq id modelId)) prev). lia.
  - destruct (Nat.leb_spec Page.MAX_MODELS (List.length prev)).
    + now split.
    + split.
      * apply NoDup_app; [assumption | repeat constructor; intros [] |].
        intros a Ha [<- | []]. apply includes_not_In in I. contradiction.
      * rewrite length_app. simpl. lia.
Qed.

(** ** Submitting *)

Section PageFacts.

Variable Exn : Type.
Variable simulateEvaluation :
  list jsstring -> PromptPayload.t -> Exn + SimulationOutcome.t.

Local Abbreviation handleSubmit := (Page.handleSubmit simulateEvaluation).
Local Abbreviation run := (Page.run simulateEvaluation).
Local Abbreviation step := (Page.step simulateEvaluation).

Lemma handleSubmit_too_few (st : Page.State) :
  (List.length (Page.selected st) < Page.MIN_MODELS)%nat ->
  handleSubmit st = (Page.setError (Some Page.msgTooFew) st, []).
Proof.
  intros H. unfold Page.handleSubmit.
  destruct (Nat.ltb_spec (List.length (Page.selected st)) Page.MIN_MODELS);
    [reflexivity | lia].
Qed.

Lemma handleSubmit_too_many (st : Page.State) :
  (Page.MAX_MODELS < List.length (Page.selected st))%nat ->
  handleSubmit st = (Page.setError (Some Page.msgTooMany) st, []).
Proof.
  intros H. unfold Page.handleSubmit.
  destruct (Nat.ltb_spec (List.length (Page.selected st)) Page.MIN_MODELS).
  - unfold Page.MIN_MODELS, Page.MAX_MODELS in *. lia.
  - destruct (Nat.ltb_spec Page.MAX_MODELS (List.length (Page.selected st)));
      [reflexivity | lia].
Qed.

Lemma handleSubmit_blank (st : Page.State) :
  trim (Page.promptText st) = [] ->
  exists msg,
    handleSubmit st = (Page.setError (Some msg) st, [])
    /\ In msg [Page.msgTooFew; Page.msgTooMany; Page.msgNoPrompt].
Proof.
  intros H. unfold Page.handleSubmit.
  destruct (List.length (Page.selected st) <? Page.MIN_MODELS)%nat.
  - exists Page.msgTooFew. simpl. auto.
  - destruct (Page.MAX_MODELS <? List.length (Page.selected st))%nat.
    + exists Page.msgTooMany. simpl. auto.
    + rewrite H. simpl. exists Page.msgNoPrompt. auto.
Qed.

Lemma handleSubmit_accepted (st : Page.State) :
  accepts st ->
  handleSubmit st =
  let st1 := Page.setError None (Page.setProcessing true st) in
  match simulateEvaluation (Page.selected st) (Page.promptPayload st) with
  | inr result =>
      (Page.setProcessing false
         (Page.setUserChoice None (Page.setSimulation (Some result) st1)),
       [(Page.selected st, Page.promptPayload st)])
  | inl _ => (st1, [(Page.selected st, Page.promptPayload st)])
  end.
Proof.
  intros [[L1 L2] T]. unfold Page.handleSubmit.
  destruct (Nat.ltb_spec (List.length (Page.selected st)) Page.MIN_MODELS);
    [lia|].
  destruct (Nat.ltb_spec Page.MAX_MODELS (List.length (Page.selected st)));
    [lia|].
  apply truthy_true_iff in T. rewrite T. reflexivity.
Qed.

(** The engine is invoked exactly on the submissions the guard accepts. *)
Lemma handleSubmit_calls (st : Page.State) :
  snd (handleSubmit st) <> [] <-> accepts st.
Proof.
  split.
  - intros H. unfold accepts.
    destruct (Nat.lt_ge_cases (List.length (Page.selected st)) Page.MIN_MODELS)
      as [L|L].
    { rewrite (handleSubmit_too_few st L) in H. now elim H. }
    destruct (Nat.lt_ge_cases Page.MAX_MODELS (List.length (Page.selected st)))
      as [M|M].
    { rewrite (handleSubmit_too_many st M) in H. now elim H. }
    split; [lia|]. intros T.
    destruct (handleSubmit_blank _ T) as (msg & E & _).
    rewrite E in H. now elim H.
  - intros A. rewrite (handleSubmit_accepted st A). simpl.
    destruct (simulateEvaluation _ _); discriminate.
Qed.

(** C2.  A submission whose prompt text is empty or holds white space only is
    rejected with an error message: the handler makes no call to
    [simulateEvaluation], so no outcome is produced, and the stored
    simulation is the one that was there before. *)
Theorem submit_blank_prompt_rejected (st : Page.State) :
  forallb isWhiteSpace (Page.promptText st) = true ->
  snd (handleSubmit st) = []
  /\ (exists msg, Page.error (fst (handleSubmit st)) = Some msg)
  /\ Page.simulation (fst (handleSubmit st)) = Page.simulation st.
Proof.
  intros W. apply trim_nil_iff in W.
  destruct (handleSubmit_blank _ W) as (msg & E & _). rewrite E. simpl.
  repeat split. now exists msg.
Qed.

(** C3.  A submission whose selection has fewer than 4 or more than 5 model
    ids is rejected with an error message before any synthesis: the handler
    makes no call to [simulateEvaluation], and the stored simulation is
    unchanged. *)
Theorem submit_bad_selection_rejected (st : Page.State) :
  (List.length (Page.selected st) < 4 \/ 5 < List.length (Page.selected st))%nat ->
  snd (handleSubmit st) = []
  /\ (exists msg, Page.error (fst (handleSubmit st)) = Some msg)
  /\ Page.simulation (fst (handleSubmit st)) = Page.simulation st.
Proof.
  intros [L | M].
  - rewrite (handleSubmit_too_few st L). simpl.
    repeat split. now exists Page.msgTooFew.
  - rewrite (handleSubmit_too_many st M). simpl.
    repeat split. now exists Page.msgTooMany.
Qed.

(** C7.  Whenever [handleSubmit] invokes the engine, it does so once, on the
    current selection and on a payload whose [text] is the trimmed prompt
    (which is not empty), whose [modality] is multimodal exactly when an image
    is attached, and whose image fields are those of the attachment, or
    undefined without one. *)
Theorem submit_payload_shape (st : Page.State) (ids : list jsstring)
    (p : PromptPayload.t) :
  In (ids, p) (snd (handleSubmit st)) ->
  snd (handleSubmit st) = [(ids, p)]
  /\ ids = Page.selected st
  /\ PromptPayload.text p = trim (Page.promptText st)
  /\ PromptPayload.text p <> []
  /\ (PromptPayload.modality p = ModMultimodal <-> Page.imageAttachment st <> None)
  /\ (PromptPayload.modality p = ModText <-> Page.imageAttachment st = None)
  /\ match Page.imageAttachment st with
     | Some a =>
         PromptPayload.imageFileName p = Some (ImageAttachment.name a)
         /\ PromptPayload.imageDataUrl p = Some (ImageAttachment.dataUrl a)
     | None =>
         PromptPayload.imageFileName p = None
         /\ PromptPayload.imageDataUrl p = None
     end.
Proof.
  intros H.
  assert (A : accepts st).
  { apply handleSubmit_calls. intros E. now rewrite E in H. }
  assert (C : snd (handleSubmit st) = [(Page.selected st, Page.promptPayload st)]).
  { rewrite (handleSubmit_accepted st A). simpl.
    now destruct (simulateEvaluation _ _). }
  rewrite C in H. destruct H as [E | []]. injection E as <- <-.
  split; [exact C|]. split; [reflexivity|]. split; [reflexivity|].
  split; [exact (proj2 A)|].
  unfold Page.promptPayload. simpl.
  destruct (Page.imageAttachment st); simpl;
    repeat split; congruence.
Qed.

(** *** Reachable states *)

Lemma step_selected (st : Page.State) (e : Page.Event) :
  Page.selected (step st e) = Page.selected st
  \/ exists modelId,
       Page.selected (step st e) = Page.toggle modelId (Page.selected st).
Proof.
  destruct e; simpl; try (now left).
  - right. now exists modelId.
  - left. unfold Page.handleImageUpload. destruct file as [f|]; [|reflexivity].
    now destruct (negb _).
  - left. unfold Page.onload. now destruct result.
  - left. unfold Page.handleSubmit.
    repeat match goal with
           | |- context [if ?c then _ else _] => destruct c
           end; try reflexivity.
    now destruct (simulateEvaluation _ _).
Qed.

Lemma run_snoc (es : list Page.Event) (e : Page.Event) :
  run (es ++ [e]) = step (run es) e.
Proof. unfold Page.run. now rewrite fold_left_app. Qed.

(** In every reachable state the selection is duplicate-free and within the
    cap. *)
Lemma run_selection_invariant (es : list Page.Event) :
  NoDup (Page.selected (run es))
  /\ (List.length (Page.selected (run es)) <= Page.MAX_MODELS)%nat.
Proof.
  induction es as [|e es IH] using rev_ind.
  - simpl. split; [constructor | unfold Page.MAX_MODELS; lia].
  - rewrite run_snoc.
    destruct (step_selected (run es) e) as [-> | (modelId & ->)];
      [assumption | now apply toggle_invariant].
Qed.

Lemma handleSubmit_error (st : Page.State) :
  (List.length (Page.selected st) <= Page.MAX_MODELS)%nat ->
  Page.error (fst (handleSubmit st)) <> Some Page.msgTooMany.
Proof.
  intros L. unfold Page.handleSubmit.
  destruct (List.length (Page.selected st) <? Page.MIN_MODELS)%nat;
    [simpl; intros E; now vm_compute in E|].
  destruct (Nat.ltb_spec Page.MAX_MODELS (List.length (Page.selected st)));
    [lia|].
  destruct (negb _); [simpl; intros E; now vm_compute in E|].
  destruct (simulateEvaluation _ _); simpl; discriminate.
Qed.

(** The message of the "at most 5" branch is never on display. *)
Lemma run_never_too_many (es : list Page.Event) :
  Page.error (run es) <> Some Page.msgTooMany.
Proof.
  induction es as [|e es IH] using rev_ind; [discriminate|].
  rewrite run_snoc. destruct e; simpl; try exact IH.
  - unfold Page.handleImageUpload. destruct file as [f|]; [|exact IH].
    destruct (negb _); [simpl; intros E; now vm_compute in E | exact IH].
  - unfold Page.onload. destruct result; [discriminate | exact IH].
  - apply handleSubmit_error. apply run_selection_invariant.
Qed.

(** C9.  After any sequence of page events, and so after any sequence of
    [handleToggleModel] calls from the empty selection, the selected ids are
    pairwise distinct and at most 5; toggling a selected id removes it,
    toggling a new id at length 5 changes nothing, and the branch of
    [handleSubmit] that rejects more than 5 selections is never taken. *)
Theorem selection_invariant (es : list Page.Event) :
  let st := run es in
  NoDup (Page.selected st)
  /\ (List.length (Page.selected st) <= 5)%nat
  /\ (forall modelId, In modelId (Page.selected st) ->
        ~ In modelId (Page.selected (Page.handleToggleModel modelId st))
        /\ S (List.length (Page.selected (Page.handleToggleModel modelId st)))
           = List.length (Page.selected st)
        /\ forall id, id <> modelId ->
             (In id (Page.selected (Page.handleToggleModel modelId st))
              <-> In id (Page.selected st)))
  /\ (forall modelId, ~ In modelId (Page.selected st) ->
        List.length (Page.selected st) = 5%nat ->
        Page.handleToggleModel modelId st = st)
  /\ (Page.MAX_MODELS <? List.length (Page.selected st))%nat = false
  /\ Page.error (fst (handleSubmit st)) <> Some Page.msgTooMany
  /\ Page.error st <> Some Page.msgTooMany.
Proof.
  intros st. destruct (run_selection_invariant es) as [ND L]. fold st in ND, L.
  split; [exact ND|]. split; [exact L|]. split; [|split; [|split; [|split]]].
  - intros modelId H. simpl. split; [now apply toggle_removes|]. split.
    + rewrite (toggle_selected _ _ H). now apply filter_out_length.
    + intros id D. rewrite (toggle_selected _ _ H), filter_In. split.
      * tauto.
      * intros I. split; [exact I|]. apply negb_true_iff. now apply streq_false.
  - intros modelId H E. unfold Page.handleToggleModel, Page.setSelected.
    rewrite (toggle_full _ _ H E). now destruct st.
  - apply Nat.ltb_ge. exact L.
  - now apply handleSubmit_error.
  - apply run_never_too_many.
Qed.

(** A run of toggles alone is a run of page events. *)
Lemma run_toggles (ids : list jsstring) :
  run (map Page.ToggleModel ids)
  = fold_left (fun st id => Page.handleToggleModel id st) ids Page.initial.
Proof.
  unfold Page.run. generalize Page.initial.
  induction ids as [|id ids IH]; intros st; simpl; [reflexivity | apply IH].
Qed.

End PageFacts.

(** ** The leaderboard *)

Section SortFacts.

Variable A : Type.
Variable key : A -> Q.

Local Abbreviation desc := (fun a b : A => key b - key a).
Local Abbreviation geq := (fun a b : A => key b <= key a).

Lemma insert_perm (x : A) (l : list A) :
  Permutation (x :: l) (insert desc x l).
Proof.
  induction l as [|y l IH]; simpl; [reflexivity|].
  destruct (Qlt_le_dec 0 (key y - key x)); [|reflexivity].
  rewrite perm_swap. now constructor.
Qed.

Lemma sort_perm (l : list A) : Permutation l (sort desc l).
Proof.
  induction l as [|x l IH]; simpl; [constructor|].
  rewrite <- insert_perm. now constructor.
Qed.

Lemma insert_sorted (x : A) (l : list A) :
  StronglySorted geq l -> StronglySorted geq (insert desc x l).
Proof.
  induction 1 as [|y l S IH F]; simpl.
  - repeat constructor.
  - destruct (Qlt_le_dec 0 (key y - key x)) as [Lt | Le].
    + constructor; [exact IH|].
      rewrite <- insert_perm. constructor; [lra | exact F].
    + constructor; [now constructor|].
      constructor; [lra|].
      eapply Forall_impl; [|exact F]. simpl. intros z Hz. lra.
Qed.

Lemma sort_sorted (l : list A) : StronglySorted geq (sort desc l).
Proof.
  induction l as [|x l IH]; simpl; [constructor | now apply insert_sorted].
Qed.

(** Stability: an element passes only elements of strictly greater key. *)
Lemma insert_stable (v : Q) (x : A) (l : list A) :
  filter (fun a => Qeq_bool (key a) v) (insert desc x l)
  = filter (fun a => Qeq_bool (key a) v) (x :: l).
Proof.
  induction l as [|y l IH]; [reflexivity|].
  cbn [insert].
  destruct (Qlt_le_dec 0 (key y - key x)) as [Lt | Le]; [|reflexivity].
  cbn [filter] in *. rewrite IH.
  destruct (Qeq_bool (key y) v) eqn:Ey; [|reflexivity].
  destruct (Qeq_bool (key x) v) eqn:Ex; [|reflexivity].
  apply Qeq_bool_iff in Ex, Ey. exfalso. lra.
Qed.

Lemma sort_stable (v : Q) (l : list A) :
  filter (fun a => Qeq_bool (key a) v) (sort desc l)
  = filter (fun a => Qeq_bool (key a) v) l.
Proof.
  induction l as [|x l IH]; [reflexivity|].
  cbn [sort fold_right]. fold (sort desc l).
  rewrite insert_stable. cbn [filter]. now rewrite IH.
Qed.

End SortFacts.

(** C1, as the page computes it.  The leaderboard is the aggregates sequence
    stably sorted by descending [overall]: a permutation of the aggregates, in
    non-increasing [overall], in which the entries of any one [overall] value
    stand in the order they have in [aggregates]. *)
Theorem leaderboard_stable_by_overall (st : Page.State)
    (sim : SimulationOutcome.t) :
  Page.simulation st = Some sim ->
  Permutation (SimulationOutcome.aggregates sim) (Page.leaderboard st)
  /\ StronglySorted byOverall (Page.leaderboard st)
  /\ forall v,
       filter (sameOverall v) (Page.leaderboard st)
       = filter (sameOverall v) (SimulationOutcome.aggregates sim).
Proof.
  intros E. unfold Page.leaderboard. rewrite E. split; [|split].
  - apply sort_perm.
  - apply (sort_sorted _ AggregatedScore.overall).
  - intros v. apply (sort_stable _ AggregatedScore.overall).
Qed.

Lemma leaderboard_stable_by_overall_witness :
  exists sim,
    Page.simulation Examples.stTie = Some sim
    /\ Permutation (SimulationOutcome.aggregates sim)
         (Page.leaderboard Examples.stTie)
    /\ StronglySorted byOverall (Page.leaderboard Examples.stTie)
    /\ forall v,
         filter (sameOverall v) (Page.leaderboard Examples.stTie)
         = filter (sameOverall v) (SimulationOutcome.aggregates sim).
Proof.
  destruct (Page.simulation Examples.stTie) as [sim|] eqn:E;
    [|vm_compute in E; discriminate].
  exists sim. split; [reflexivity|].
  apply (leaderboard_stable_by_overall Examples.stTie sim E).
Defined.

(** C1, as the specification words it, fails.  Four models are submitted in
    the order model-b, model-a, model-c, model-d; every judge gives model-a
    and model-b the same [overall] 7, model-a the accuracy 9 and model-b the
    accuracy 5.  The leaderboard lists model-b before model-a. *)
Lemma leaderboard_ignores_accuracy :
  map AggregatedScore.modelId (Page.leaderboard Examples.stTie)
  = [lit "model-b"; lit "model-a"; lit "model-c"; lit "model-d"]
  /\ ~ tiesByAccuracy (Page.leaderboard Examples.stTie)
  /\ ~ rankedBySpec (Page.leaderboard Examples.stTie).
Proof.
  split; [reflexivity|].
  remember (Page.leaderboard Examples.stTie) as l eqn:E.
  vm_compute in E. subst l. split; intros H.
  - match type of H with
    | tiesByAccuracy (?a :: ?b :: ?r) =>
        specialize (H [] a [] b r eq_refl)
    end.
    vm_compute in H. now apply H.
  - match type of H with
    | rankedBySpec (?a :: ?b :: ?r) =>
        specialize (H [] a [] b r eq_refl)
    end.
    vm_compute in H. now apply H.
Qed.

(** ** The alignment verdict *)

Section AlignmentFacts.

Variable Exn : Type.
Variable simulateEvaluation :
  list jsstring -> PromptPayload.t -> Exn + SimulationOutcome.t.
Variable META_EVALUATOR_ID : jsstring.
Variable getModelById : jsstring -> option Model.t.

Local Abbreviation handleSubmit := (Page.handleSubmit simulateEvaluation).
Local Abbreviation alignmentState :=
  (Page.alignmentState META_EVALUATOR_ID getModelById).
Local Abbreviation firstPlace :=
  (find (fun item => (GeminiRankingEntry.placement item =? 1)%Z)).

Lemma alignmentState_some (st : Page.State) (v : Page.AlignmentState) :
  alignmentState st = Some v ->
  exists sim c top,
    Page.simulation st = Some sim /\ Page.userChoice st = Some c /\ c <> []
    /\ firstPlace (SimulationOutcome.geminiRanking sim) = Some top
    /\ Page.aligned v = streq c (GeminiRankingEntry.modelId top).
Proof.
  unfold Page.alignmentState, Page.geminiTop.
  destruct (Page.simulation st) as [sim|]; [|discriminate].
  destruct (Page.userChoice st) as [c|]; [|discriminate].
  destruct (firstPlace (SimulationOutcome.geminiRanking sim)) as [top|] eqn:F;
    [|discriminate].
  destruct (truthy c) eqn:T; simpl; [|discriminate].
  intros E. injection E as <-. exists sim, c, top.
  apply truthy_true_iff in T. repeat split; assumption || reflexivity.
Qed.

Lemma alignmentState_computed (st : Page.State) (sim : SimulationOutcome.t)
    (c : jsstring) (top : GeminiRankingEntry.t) :
  Page.simulation st = Some sim -> Page.userChoice st = Some c -> c <> [] ->
  firstPlace (SimulationOutcome.geminiRanking sim) = Some top ->
  exists v, alignmentState st = Some v
            /\ Page.aligned v = streq c (GeminiRankingEntry.modelId top).
Proof.
  intros S U N F. unfold Page.alignmentState, Page.geminiTop.
  rewrite S, U, F. apply truthy_true_iff in N. rewrite N. simpl.
  eexists. split; [reflexivity|]. reflexivity.
Qed.

(** C10.  An alignment verdict exists only when a simulation is stored, the
    user has chosen, and the ranking holds an entry of placement 1; its
    [aligned] flag is true exactly when the chosen id is the [modelId] of the
    first such entry.  With these three and a non-empty chosen id the verdict
    is computed.  A submission on which the engine returns an outcome stores
    it and resets the choice, so no verdict is left. *)
Theorem alignment_verdict (st : Page.State) :
  (forall v, alignmentState st = Some v ->
     exists sim c top,
       Page.simulation st = Some sim /\ Page.userChoice st = Some c
       /\ firstPlace (SimulationOutcome.geminiRanking sim) = Some top
       /\ GeminiRankingEntry.placement top = 1%Z
       /\ (Page.aligned v = true <-> c = GeminiRankingEntry.modelId top))
  /\ (forall sim c top,
        Page.simulation st = Some sim -> Page.userChoice st = Some c ->
        c <> [] ->
        firstPlace (SimulationOutcome.geminiRanking sim) = Some top ->
        exists v, alignmentState st = Some v
                  /\ (Page.aligned v = true
                      <-> c = GeminiRankingEntry.modelId top))
  /\ (forall result,
        accepts st ->
        simulateEvaluation (Page.selected st) (Page.promptPayload st)
        = inr result ->
        Page.simulation (fst (handleSubmit st)) = Some result
        /\ Page.userChoice (fst (handleSubmit st)) = None
        /\ alignmentState (fst (handleSubmit st)) = None).
Proof.
  split; [|split].
  - intros v H. destruct (alignmentState_some st v H)
      as (sim & c & top & S & U & _ & F & A).
    exists sim, c, top. repeat split; try assumption.
    + apply find_some in F. now apply Z.eqb_eq.
    + rewrite A. apply streq_true.
    + rewrite A. apply streq_true.
  - intros sim c top S U N F.
    destruct (alignmentState_computed st sim c top S U N F) as (v & E & A).
    exists v. split; [exact E|]. rewrite A. apply streq_true.
  - intros result A E.
    assert (H : handleSubmit st =
      (Page.setProcessing false
         (Page.setUserChoice None
            (Page.setSimulation (Some result)
               (Page.setError None (Page.setProcessing true st)))),
       [(Page.selected st, Page.promptPayload st)])).
    { rewrite (handleSubmit_accepted Exn simulateEvaluation st A).
      simpl. now rewrite E. }
    rewrite H. simpl. repeat split.
Qed.

End AlignmentFacts.

Lemma alignment_verdict_witness :
  (exists v,
     Page.alignmentState Examples.metaId Examples.catalogLookup Examples.stTie
     = Some v /\ Page.aligned v = true)
  /\ Page.userChoice
       (fst (Page.handleSubmit (Examples.engine Examples.env0) Examples.stReady))
     = None.
Proof.
  split.
  - destruct (Page.alignmentState Examples.metaId Examples.catalogLookup
                Examples.stTie) as [v|] eqn:E;
      [|vm_compute in E; discriminate].
    exists v. split; [reflexivity|].
    destruct (alignment_verdict Engine.EngineError
                (Examples.engine Examples.env0) Examples.metaId
                Examples.catalogLookup Examples.stTie) as (H & _).
    destruct (H v E) as (sim & c & top & S & U & F & _ & A).
    apply A.
    vm_compute in S, U. injection S as <-. injection U as <-.
    vm_compute in F. injection F as <-. reflexivity.
  - destruct (Examples.engine Examples.env0 (Page.selected Examples.stReady)
                (Page.promptPayload Examples.stReady)) as [e | result] eqn:E;
      [vm_compute in E; discriminate|].
    assert (A : accepts Examples.stReady)
      by (split; [vm_compute; lia | vm_compute; discriminate]).
    exact (proj1 (proj2
             (proj2 (proj2 (alignment_verdict Engine.EngineError
                              (Examples.engine Examples.env0) Examples.metaId
                              Examples.catalogLookup Examples.stReady))
                result A E))).
Defined.

(** *** The theorems on sample submissions *)

Lemma submit_blank_prompt_rejected_witness :
  forallb isWhiteSpace (Page.promptText Examples.stBlank) = true
  /\ snd (Page.handleSubmit (Examples.engine Examples.env0) Examples.stBlank) = []
  /\ (exists msg,
        Page.error
          (fst (Page.handleSubmit (Examples.engine Examples.env0) Examples.stBlank))
        = Some msg)
  /\ Page.simulation
       (fst (Page.handleSubmit (Examples.engine Examples.env0) Examples.stBlank))
     = Page.simulation Examples.stBlank.
Proof.
  split; [reflexivity|].
  apply (submit_blank_prompt_rejected Engine.EngineError
           (Examples.engine Examples.env0) Examples.stBlank).
  reflexivity.
Defined.

Lemma submit_bad_selection_rejected_witness :
  (List.length (Page.selected Examples.stFew) < 4)%nat
  /\ snd (Page.handleSubmit (Examples.engine Examples.env0) Examples.stFew) = []
  /\ (exists msg,
        Page.error
          (fst (Page.handleSubmit (Examples.engine Examples.env0) Examples.stFew))
        = Some msg)
  /\ Page.simulation
       (fst (Page.handleSubmit (Examples.engine Examples.env0) Examples.stFew))
     = Page.simulation Examples.stFew.
Proof.
  split; [simpl; lia|].
  apply (submit_bad_selection_rejected Engine.EngineError
           (Examples.engine Examples.env0) Examples.stFew).
  left. simpl. lia.
Defined.

Lemma submit_payload_shape_witness :
  In (Examples.four, Page.promptPayload Examples.stReady)
    (snd (Page.handleSubmit (Examples.engine Examples.env0) Examples.stReady))
  /\ PromptPayload.text (Page.promptPayload Examples.stReady)
     = lit "Summarize quarterly earnings"
  /\ PromptPayload.modality (Page.promptPayload Examples.stReady) = ModMultimodal.
Proof.
  assert (I : In (Examples.four, Page.promptPayload Examples.stReady)
                (snd (Page.handleSubmit (Examples.engine Examples.env0)
                        Examples.stReady)))
    by (vm_compute; left; reflexivity).
  split; [exact I|].
  destruct (submit_payload_shape Engine.EngineError
              (Examples.engine Examples.env0) Examples.stReady
              Examples.four (Page.promptPayload Examples.stReady) I)
    as (_ & _ & T & _ & M & _).
  split.
  - rewrite T. reflexivity.
  - apply M. discriminate.
Defined.

Lemma selection_invariant_witness :
  let st := Page.run (Examples.engine Examples.env0)
              (map Page.ToggleModel
                 (Examples.four ++ [lit "model-e"; lit "meta"; lit "model-b"]))
  in
  Page.selected st
  = [lit "model-a"; lit "model-c"; lit "model-d"; lit "model-e"]
  /\ NoDup (Page.selected st)
  /\ (List.length (Page.selected st) <= 5)%nat.
Proof.
  intros st. split; [reflexivity|].
  destruct (selection_invariant Engine.EngineError
              (Examples.engine Examples.env0)
              (map Page.ToggleModel
                 (Examples.four ++ [lit "model-e"; lit "meta"; lit "model-b"])))
    as (ND & L & _).
  split; [exact ND | exact L].
Defined.

(** ** The catalog and the rendered names *)

Section CatalogFacts.

Variable MODEL_OPTIONS : list Model.t.
Variable META_EVALUATOR_ID : jsstring.
Variable getModelById : jsstring -> option Model.t.
Variable toFixed : Q -> nat -> jsstring.
Variable numberToString : Q -> jsstring.

Local Abbreviation selectableModels :=
  (Page.selectableModels MODEL_OPTIONS META_EVALUATOR_ID).
Local Abbreviation modelCards :=
  (View.modelCards MODEL_OPTIONS META_EVALUATOR_ID).
Local Abbreviation renderResults :=
  (View.renderResults META_EVALUATOR_ID getModelById toFixed numberToString).

Lemma filter_as_flat_map (A : Type) (p : A -> bool) (l : list A) :
  filter p l = flat_map (fun x => if p x then [x] else []) l.
Proof.
  induction l as [|x l IH]; simpl; [reflexivity|].
  rewrite IH. now destruct (p x).
Qed.

(** C6.  The selectable list is the catalog, entry by entry and in catalog
    order, without the entries whose id is the meta-evaluator's: a model is
    selectable exactly when it is in the catalog under another id, and the
    check boxes offered are those of the selectable list, none of them for
    the meta-evaluator's id. *)
Theorem selectable_is_catalog_minus_meta :
  (forall model,
     In model selectableModels
     <-> In model MODEL_OPTIONS /\ Model.id model <> META_EVALUATOR_ID)
  /\ selectableModels
     = flat_map
         (fun model =>
            if streq (Model.id model) META_EVALUATOR_ID then [] else [model])
         MODEL_OPTIONS
  /\ (forall st,
        map View.mcKey (modelCards st) = map Model.id selectableModels)
  /\ (forall st, ~ In META_EVALUATOR_ID (map View.mcKey (modelCards st))).
Proof.
  assert (M : forall model,
             In model selectableModels
             <-> In model MODEL_OPTIONS /\ Model.id model <> META_EVALUATOR_ID).
  { intros model. unfold Page.selectableModels. rewrite filter_In.
    rewrite negb_true_iff, streq_false. reflexivity. }
  assert (K : forall st,
             map View.mcKey (modelCards st) = map Model.id selectableModels).
  { intros st. unfold View.modelCards. rewrite map_map. reflexivity. }
  split; [exact M|]. split; [|split; [exact K|]].
  - unfold Page.selectableModels. rewrite filter_as_flat_map.
    apply flat_map_ext. intros model.
    now destruct (streq (Model.id model) META_EVALUATOR_ID).
  - intros st. rewrite K, in_map_iff. intros (model & E & I).
    apply M in I. tauto.
Qed.

Lemma mapi_from_length (A B : Type) (f : A -> nat -> B) (i : nat) (l : list A) :
  List.length (View.mapi_from f i l) = List.length l.
Proof.
  revert i. induction l as [|x l IH]; intros i; simpl; [reflexivity|].
  now rewrite IH.
Qed.

Lemma mapi_from_In (A B : Type) (f : A -> nat -> B) (i : nat) (l : list A)
    (y : B) :
  In y (View.mapi_from f i l) -> exists x n, In x l /\ y = f x n.
Proof.
  revert i. induction l as [|x l IH]; intros i; simpl; [tauto|].
  intros [<- | H].
  - exists x, i. auto.
  - destruct (IH _ H) as (x' & n & I & E). exists x', n. auto.
Qed.

Lemma firstn_In (A : Type) (n : nat) (l : list A) (x : A) :
  In x (firstn n l) -> In x l.
Proof.
  revert l. induction n as [|n IH]; intros [|y l]; simpl; try tauto.
  intros [E | H]; [now left | right; now apply IH].
Qed.

Lemma displayName_absent (rawId : jsstring) :
  getModelById rawId = None ->
  Page.displayName (getModelById rawId) rawId = rawId.
Proof. intros E. now rewrite E. Qed.

Lemma sort_length (A : Type) (cmp : A -> A -> Q) (l : list A) :
  List.length (sort cmp l) = List.length l.
Proof.
  induction l as [|x l IH]; simpl; [reflexivity|].
  rewrite <- IH. generalize (sort cmp l). intros s.
  induction s as [|y s IHs]; simpl; [reflexivity|].
  destruct (Qlt_le_dec 0 (cmp x y)); simpl; [now rewrite IHs | reflexivity].
Qed.

Lemma Forall2_map_right (A B : Type) (R : A -> B -> Prop) (f : A -> B)
    (l : list A) :
  (forall x, In x l -> R x (f x)) -> Forall2 R l (map f l).
Proof.
  induction l as [|x l IH]; intros H; simpl; constructor.
  - apply H. now left.
  - apply IH. intros y Hy. apply H. now right.
Qed.

Lemma Forall2_mapi_from (A B : Type) (R : A -> B -> Prop) (f : A -> nat -> B)
    (i : nat) (l : list A) :
  (forall x n, In x l -> R x (f x n)) -> Forall2 R l (View.mapi_from f i l).
Proof.
  revert i. induction l as [|x l IH]; intros i H; simpl; constructor.
  - apply H. now left.
  - apply IH. intros y n Hy. apply H. now right.
Qed.

Lemma showsName_displayName (rawId : jsstring) :
  showsName getModelById rawId
    (Page.displayName (getModelById rawId) rawId).
Proof.
  unfold showsName, Page.displayName. now destruct (getModelById rawId).
Qed.

(** C8.  With a simulation stored the results block renders, whatever
    [getModelById] answers: one leaderboard row per aggregate, one ranking
    card per ranking entry, one radio item and one grid slot per response, a
    response card for every response that has an aggregate.  Each row, card,
    peer note and radio item stands for its entry, in order, and the name it
    shows for the entry's model id is the raw id where the lookup of that id
    is absent (the catalog name where it is not). *)
Theorem unknown_id_falls_back (st : Page.State) (sim : SimulationOutcome.t) :
  Page.simulation st = Some sim ->
  exists view,
    renderResults st = Some view
    /\ List.length (View.rsLeaderboard view)
       = List.length (SimulationOutcome.aggregates sim)
    /\ List.length (View.rsRanking view)
       = List.length (SimulationOutcome.geminiRanking sim)
    /\ List.length (View.rsRadios view)
       = List.length (SimulationOutcome.responses sim)
    /\ List.length (View.rsResponses view)
       = List.length (SimulationOutcome.responses sim)
    /\ (forall response aggregate,
          In response (SimulationOutcome.responses sim) ->
          In aggregate (SimulationOutcome.aggregates sim) ->
          AggregatedScore.modelId aggregate = ModelResponse.modelId response ->
          exists card,
            In (Some card) (View.rsResponses view)
            /\ View.rcKey card = ModelResponse.modelId response)
    /\ Forall2
         (fun entry row =>
            View.lrKey row = AggregatedScore.modelId entry
            /\ showsName getModelById (AggregatedScore.modelId entry)
                 (View.lrModel row))
         (Page.leaderboard st) (View.rsLeaderboard view)
    /\ Forall2
         (fun response slot =>
            match slot with
            | Some card =>
                View.rcKey card = ModelResponse.modelId response
                /\ showsName getModelById (ModelResponse.modelId response)
                     (View.rcTitle card)
                /\ Forall2
                     (fun evaluation note =>
                        exists name,
                          showsName getModelById
                            (CrossEvaluation.judgeModelId evaluation) name
                          /\ View.pnText note
                             = name ++ lit " scored "
                                 ++ toFixed (CrossEvaluation.overall evaluation) 1
                                 ++ lit "/10 " ++ View.enDash ++ lit " "
                                 ++ CrossEvaluation.rationale evaluation)
                     (firstn 3
                        (filter
                           (fun e =>
                              streq (CrossEvaluation.targetModelId e)
                                (ModelResponse.modelId response))
                           (SimulationOutcome.crossEvaluations sim)))
                     (View.rcPeerNotes card)
            | None =>
                ~ In (ModelResponse.modelId response)
                    (map AggregatedScore.modelId
                       (SimulationOutcome.aggregates sim))
            end)
         (SimulationOutcome.responses sim) (View.rsResponses view)
    /\ Forall2
         (fun ranking card =>
            View.rkKey card = GeminiRankingEntry.modelId ranking
            /\ View.rkLabel card = GeminiRankingEntry.placement ranking
            /\ showsName getModelById (GeminiRankingEntry.modelId ranking)
                 (View.rkModel card))
         (SimulationOutcome.geminiRanking sim) (View.rsRanking view)
    /\ Forall2
         (fun response item =>
            View.riValue item = ModelResponse.modelId response
            /\ exists name rest,
                 showsName getModelById (ModelResponse.modelId response) name
                 /\ View.riLabel item = name ++ rest)
         (SimulationOutcome.responses sim) (View.rsRadios view).
Proof.
  intros S. unfold View.renderResults. rewrite S.
  eexists. split; [reflexivity|]. cbn [View.rsLeaderboard View.rsRanking
    View.rsRadios View.rsResponses].
  assert (Card : forall response a,
             let card := View.renderResponseCard getModelById toFixed
                           numberToString st response a in
             View.rcKey card = ModelResponse.modelId response
             /\ showsName getModelById (ModelResponse.modelId response)
                  (View.rcTitle card)
             /\ Forall2
                  (fun evaluation note =>
                     exists name,
                       showsName getModelById
                         (CrossEvaluation.judgeModelId evaluation) name
                       /\ View.pnText note
                          = name ++ lit " scored "
                              ++ toFixed (CrossEvaluation.overall evaluation) 1
                              ++ lit "/10 " ++ View.enDash ++ lit " "
                              ++ CrossEvaluation.rationale evaluation)
                  (firstn 3
                     (filter
                        (fun e =>
                           streq (CrossEvaluation.targetModelId e)
                             (ModelResponse.modelId response))
                        (SimulationOutcome.crossEvaluations sim)))
                  (View.rcPeerNotes card)).
  { intros response a card. subst card. unfold View.renderResponseCard.
    cbn [View.rcKey View.rcTitle View.rcPeerNotes].
    split; [reflexivity|]. split; [apply showsName_displayName|].
    unfold Page.crossEvaluationsByModel. rewrite S. cbn [nullish].
    apply Forall2_map_right. intros e _. eexists.
    split; [apply showsName_displayName | reflexivity]. }
  split; [|split; [|split; [|split; [|split; [|split; [|split; [|split]]]]]]].
  - unfold View.leaderboardRows, View.mapi, Page.leaderboard.
    rewrite mapi_from_length, S. apply sort_length.
  - apply length_map.
  - apply length_map.
  - unfold View.responseCards. apply length_map.
  - intros response aggregate IR IA E.
    unfold View.responseCards.
    destruct (View.findAggregate sim (ModelResponse.modelId response))
      as [a|] eqn:F.
    + exists (View.renderResponseCard getModelById toFixed numberToString
                st response a).
      split; [|reflexivity]. apply in_map_iff. exists response.
      split; [|exact IR]. now rewrite F.
    + exfalso. unfold View.findAggregate in F.
      pose proof (find_none _ _ F aggregate IA) as N. simpl in N.
      rewrite E, streq_refl in N. discriminate.
  - unfold View.leaderboardRows, View.mapi. apply Forall2_mapi_from.
    intros entry n _. cbn [View.lrKey View.lrModel].
    split; [reflexivity | apply showsName_displayName].
  - unfold View.responseCards. apply Forall2_map_right. intros response _.
    destruct (View.findAggregate sim (ModelResponse.modelId response))
      as [a|] eqn:F; [apply Card|].
    destruct (View.topThreeMap_get sim (ModelResponse.modelId response))
      as [a|]; [apply Card|].
    cbn [option_map]. rewrite in_map_iff. intros (a & E & I).
    unfold View.findAggregate in F.
    pose proof (find_none _ _ F a I) as N. simpl in N.
    rewrite E, streq_refl in N. discriminate.
  - apply Forall2_map_right. intros ranking _.
    cbn [View.renderRankCard View.rkKey View.rkLabel View.rkModel].
    unfold View.renderRankCard. cbn [View.rkKey View.rkLabel View.rkModel].
    split; [reflexivity|]. split; [reflexivity | apply showsName_displayName].
  - apply Forall2_map_right. intros response _.
    unfold View.renderRadio. cbn [View.riValue View.riLabel].
    split; [reflexivity|]. eexists. eexists.
    split; [apply showsName_displayName | reflexivity].
Qed.

End CatalogFacts.

Lemma unknown_id_falls_back_witness :
  Examples.partialLookup (lit "model-b") = None
  /\ exists sim view,
       Page.simulation Examples.stTie = Some sim
       /\ View.renderResults Examples.metaId Examples.partialLookup
            Examples.showFixed (fun q => Examples.showFixed q 0) Examples.stTie
          = Some view
       /\ map View.lrModel (View.rsLeaderboard view)
          = [lit "model-b"; lit "Model A"; lit "model-c"; lit "model-d"]
       /\ map View.rkModel (View.rsRanking view)
          = [lit "Model A"; lit "model-b"; lit "model-c"]
       /\ Forall2
            (fun ranking card =>
               View.rkKey card = GeminiRankingEntry.modelId ranking
               /\ View.rkLabel card = GeminiRankingEntry.placement ranking
               /\ showsName Examples.partialLookup
                    (GeminiRankingEntry.modelId ranking) (View.rkModel card))
            (SimulationOutcome.geminiRanking sim) (View.rsRanking view).
Proof.
  split; [reflexivity|].
  destruct (Page.simulation Examples.stTie) as [sim|] eqn:S;
    [|vm_compute in S; discriminate].
  destruct (unknown_id_falls_back Examples.metaId Examples.partialLookup
              Examples.showFixed (fun q => Examples.showFixed q 0)
              Examples.stTie sim S)
    as (view & E & _ & _ & _ & _ & _ & _ & _ & K & _).
  exists sim, view. split; [reflexivity|]. split; [exact E|].
  split; [|split; [|exact K]];
    vm_compute in E; injection E as <-; reflexivity.
Defined.

(** ** The engine's contract *)

Lemma pairsWith_In (judges targets : list jsstring) (j t : jsstring) :
  In (j, t) (pairsWith judges targets)
  <-> In j judges /\ In t targets /\ j <> t.
Proof.
  unfold pairsWith. rewrite in_flat_map. split.
  - intros (x & Hx & H). apply in_map_iff in H.
    destruct H as (y & E & Hy). injection E as <- <-.
    apply filter_In in Hy. destruct Hy as [Hy N].
    apply negb_true_iff, streq_false in N. auto.
  - intros (Hj & Ht & N). exists j. split; [exact Hj|].
    apply in_map. apply filter_In. split; [exact Ht|].
    apply negb_true_iff, streq_false. auto.
Qed.

Lemma NoDup_map_pair (j : jsstring) (l : list jsstring) :
  NoDup l -> NoDup (map (pair j) l).
Proof.
  induction 1 as [|x l Hx Hl IH]; simpl; constructor; [|exact IH].
  rewrite in_map_iff. intros (y & E & Hy). injection E as ->. contradiction.
Qed.

Lemma pairsWith_NoDup (judges targets : list jsstring) :
  NoDup judges -> NoDup targets -> NoDup (pairsWith judges targets).
Proof.
  intros J T. induction J as [|j judges Hj Hjs IH]; simpl; [constructor|].
  apply NoDup_app.
  - apply NoDup_map_pair. now apply NoDup_filter.
  - exact IH.
  - intros [a b] Ha Hb. apply in_map_iff in Ha.
    destruct Ha as (y & E & _). injection E as <- <-.
    apply pairsWith_In in Hb. tauto.
Qed.

Lemma pairsWith_length (judges targets : list jsstring) :
  NoDup targets -> incl judges targets ->
  List.length (pairsWith judges targets)
  = (List.length judges * (List.length targets - 1))%nat.
Proof.
  intros T I. induction judges as [|j judges IH]; simpl; [reflexivity|].
  rewrite length_app, length_map, IH.
  - assert (Hj : In j targets) by (apply I; now left).
    pose proof (filter_out_length j targets T Hj). lia.
  - intros x Hx. apply I. now right.
Qed.

Lemma hasDuplicates_false (ids : list jsstring) :
  Engine.hasDuplicates ids = false <-> NoDup ids.
Proof.
  induction ids as [|id ids IH]; simpl.
  - split; [constructor | reflexivity].
  - rewrite orb_false_iff, includes_not_In, IH. split.
    + intros [H1 H2]. now constructor.
    + intros H. inversion H. auto.
Qed.

Section EngineFacts.

Variable MODEL_OPTIONS : list Model.t.
Variable synthContent : Model.t -> PromptPayload.t -> jsstring.
Variable synthHighlights : Model.t -> PromptPayload.t -> list jsstring.
Variable judgeMetrics : jsstring -> jsstring -> jsstring -> Metrics.t.
Variable judgeRationale : jsstring -> jsstring -> jsstring -> jsstring.
Variable weights : Metrics.t.
Variable metaRank :
  list AggregatedScore.t -> list ModelResponse.t -> PromptPayload.t ->
  list GeminiRankingEntry.t.

Local Abbreviation getModelById := (Engine.getModelById MODEL_OPTIONS).
Local Abbreviation synthesizeResponses :=
  (Engine.synthesizeResponses MODEL_OPTIONS synthContent synthHighlights).
Local Abbreviation buildCrossEvaluations :=
  (Engine.buildCrossEvaluations judgeMetrics judgeRationale weights).
Local Abbreviation evaluate :=
  (Engine.evaluate judgeMetrics judgeRationale weights).
Local Abbreviation simulateEvaluation :=
  (Engine.simulateEvaluation MODEL_OPTIONS synthContent synthHighlights
     judgeMetrics judgeRationale weights metaRank).

Lemma synthesize_ids (ids : list jsstring) (prompt : PromptPayload.t)
    (responses : list ModelResponse.t) :
  synthesizeResponses ids prompt = Some responses ->
  map ModelResponse.modelId responses = ids.
Proof.
  revert responses. induction ids as [|id ids IH]; intros responses; simpl.
  - intros E. now injection E as <-.
  - destruct (getModelById id) as [model|]; [|discriminate].
    destruct (synthesizeResponses ids prompt) as [rs|]; [|discriminate].
    intros E. injection E as <-. simpl. f_equal. now apply IH.
Qed.

Lemma synthesize_known (ids : list jsstring) (prompt : PromptPayload.t) :
  (forall id, In id ids -> getModelById id <> None) ->
  exists responses, synthesizeResponses ids prompt = Some responses.
Proof.
  induction ids as [|id ids IH]; intros K; simpl.
  - now exists [].
  - destruct (getModelById id) as [model|] eqn:G.
    + destruct IH as (rs & ->); [intros x Hx; apply K; now right|].
      eexists. reflexivity.
    + exfalso. apply (K id); [now left | exact G].
Qed.

Lemma selectionOk_iff (ids : list jsstring) :
  Engine.selectionOk MODEL_OPTIONS ids = true
  <-> (4 <= List.length ids <= 5)%nat /\ NoDup ids
      /\ forall id, In id ids -> getModelById id <> None.
Proof.
  unfold Engine.selectionOk.
  rewrite !andb_true_iff, negb_true_iff, hasDuplicates_false, forallb_forall.
  rewrite !Nat.leb_le. split.
  - intros [[[L1 L2] ND] K]. repeat split; try assumption.
    intros id Hid E. specialize (K id Hid). now rewrite E in K.
  - intros [[L1 L2] [ND K]]. repeat split; try assumption.
    intros id Hid. specialize (K id Hid).
    now destruct (getModelById id).
Qed.

Lemma evaluations_pairs (judges targets : list ModelResponse.t) :
  map pairOf
    (flat_map
       (fun judge =>
          map (evaluate judge)
            (filter
               (fun target =>
                  negb (streq (ModelResponse.modelId target)
                          (ModelResponse.modelId judge)))
               targets))
       judges)
  = pairsWith (map ModelResponse.modelId judges)
      (map ModelResponse.modelId targets).
Proof.
  induction judges as [|judge judges IH]; simpl; [reflexivity|].
  rewrite map_app, IH. f_equal. clear IH.
  induction targets as [|target targets IH]; simpl; [reflexivity|].
  destruct (negb (streq (ModelResponse.modelId target)
                    (ModelResponse.modelId judge))); simpl; now rewrite IH.
Qed.

(** C4.  On a selection of 4 or 5 distinct catalog ids and a prompt whose
    trimmed text is not empty, the engine returns an outcome; its
    cross-evaluations number N*(N-1), none has the judge as its target, and
    their (judge, target) pairs are, each once, the ordered pairs of distinct
    selected ids. *)
Theorem cross_evaluations_complete (env : Engine.Ambient)
    (ids : list jsstring) (prompt : PromptPayload.t) :
  (4 <= List.length ids <= 5)%nat ->
  NoDup ids ->
  (forall id, In id ids -> getModelById id <> None) ->
  trim (PromptPayload.text prompt) <> [] ->
  exists outcome,
    simulateEvaluation env ids prompt = inr outcome
    /\ List.length (SimulationOutcome.crossEvaluations outcome)
       = (List.length ids * (List.length ids - 1))%nat
    /\ (forall e, In e (SimulationOutcome.crossEvaluations outcome) ->
          CrossEvaluation.judgeModelId e <> CrossEvaluation.targetModelId e)
    /\ NoDup (map pairOf (SimulationOutcome.crossEvaluations outcome))
    /\ (forall j t,
          In (j, t) (map pairOf (SimulationOutcome.crossEvaluations outcome))
          <-> In j ids /\ In t ids /\ j <> t).
Proof.
  intros L ND K T.
  assert (OK : Engine.selectionOk MODEL_OPTIONS ids = true)
    by (apply selectionOk_iff; auto).
  destruct (synthesize_known ids prompt K) as (responses & S).
  pose proof (synthesize_ids ids prompt responses S) as I.
  assert (P : map pairOf (buildCrossEvaluations responses) = pairsWith ids ids).
  { unfold Engine.buildCrossEvaluations. rewrite evaluations_pairs, I.
    reflexivity. }
  unfold Engine.simulateEvaluation. rewrite OK. simpl.
  unfold Engine.promptOk. apply truthy_true_iff in T. rewrite T. simpl.
  rewrite S. eexists. split; [reflexivity|]. simpl.
  split; [|split; [|split]].
  - rewrite <- (length_map pairOf), P.
    apply pairsWith_length; [exact ND | apply incl_refl].
  - intros e He. apply (in_map pairOf) in He. rewrite P in He.
    unfold pairOf in He. apply pairsWith_In in He. tauto.
  - rewrite P. now apply pairsWith_NoDup.
  - intros j t. rewrite P. apply pairsWith_In.
Qed.

End EngineFacts.

Lemma cross_evaluations_complete_witness :
  (4 <= List.length Examples.four <= 5)%nat
  /\ NoDup Examples.four
  /\ exists outcome,
       Examples.engine Examples.env0 Examples.four Examples.textPrompt
       = inr outcome
       /\ List.length (SimulationOutcome.crossEvaluations outcome) = 12%nat.
Proof.
  assert (ND : NoDup Examples.four)
    by (apply hasDuplicates_false; reflexivity).
  split; [simpl; lia|]. split; [exact ND|].
  destruct (cross_evaluations_complete Examples.catalog
              (fun model prompt =>
                 Model.name model ++ lit ": " ++ PromptPayload.text prompt)
              (fun model _ => [Model.vendor model; Model.release model])
              Examples.sampleMetrics
              (fun judge target _ => judge ++ lit " on " ++ target)
              Examples.equalWeights Examples.sampleRank
              Examples.env0 Examples.four Examples.textPrompt)
    as (outcome & E & L & _).
  - simpl. lia.
  - exact ND.
  - intros id H. simpl in H.
    repeat (destruct H as [<- | H]; [vm_compute; discriminate|]).
    destruct H.
  - vm_compute. discriminate.
  - exists outcome. split; [exact E | exact L].
Defined.

(** * Further properties of the page *)

(** ** Toggling *)

Lemma filter_out_absent (modelId : jsstring) (l : list jsstring) :
  ~ In modelId l -> filter (fun id => negb (streq id modelId)) l = l.
Proof.
  induction l as [|x l IH]; simpl; [reflexivity|].
  intros H. destruct (streq x modelId) eqn:E.
  - apply streq_true in E. subst. exfalso. apply H. now left.
  - simpl. f_equal. apply IH. intros I. apply H. now right.
Qed.

Lemma filter_out_shorter (modelId : jsstring) (l : list jsstring) :
  In modelId l ->
  (List.length (filter (fun id => negb (streq id modelId)) l) < List.length l)%nat.
Proof.
  induction l as [|x l IH]; simpl; [tauto|].
  intros [-> | H].
  - rewrite streq_refl. simpl.
    pose proof (filter_length_le _ (fun id => negb (streq id modelId)) l). lia.
  - specialize (IH H). destruct (negb (streq x modelId)); simpl; lia.
Qed.

(** X1.  Toggling the same id twice.  An unselected id, with room left, is added
    and removed again, and the selection is what it was; a selected id is
    removed and added again, and ends up last. *)
Theorem toggle_twice (modelId : jsstring) (prev : list jsstring) :
  (~ In modelId prev -> (List.length prev < 5)%nat ->
   Page.toggle modelId (Page.toggle modelId prev) = prev)
  /\ (In modelId prev -> (List.length prev <= 5)%nat ->
      Page.toggle modelId (Page.toggle modelId prev)
      = filter (fun id => negb (streq id modelId)) prev ++ [modelId]).
Proof.
  split.
  - intros N L. rewrite (toggle_adds modelId prev N L).
    rewrite toggle_selected by (apply in_or_app; right; now left).
    rewrite filter_app, (filter_out_absent _ _ N). simpl.
    rewrite streq_refl. simpl. apply app_nil_r.
  - intros I L. rewrite (toggle_selected modelId prev I).
    apply toggle_adds.
    + rewrite filter_In, streq_refl. simpl. intros [_ E]. discriminate.
    + pose proof (filter_out_shorter modelId prev I).
      unfold Page.MAX_MODELS. lia.
Qed.

Lemma toggle_twice_witness :
  Page.toggle (lit "model-e")
    (Page.toggle (lit "model-e") Examples.four) = Examples.four
  /\ Page.toggle (lit "model-a")
       (Page.toggle (lit "model-a") Examples.four)
     = [lit "model-b"; lit "model-c"; lit "model-d"; lit "model-a"].
Proof.
  destruct (toggle_twice (lit "model-e") Examples.four) as [H _].
  destruct (toggle_twice (lit "model-a") Examples.four) as [_ K].
  split.
  - apply H; [|simpl; lia]. apply includes_not_In. reflexivity.
  - rewrite K; [reflexivity | | simpl; lia]. apply includes_In. reflexivity.
Defined.

Lemma includes_app (xs ys : list jsstring) (x : jsstring) :
  includes (xs ++ ys) x = includes xs x || includes ys x.
Proof. unfold includes. apply existsb_app. Qed.

Lemma includes_filter_other (modelId x : jsstring) (l : list jsstring) :
  x <> modelId ->
  includes (filter (fun id => negb (streq id modelId)) l) x = includes l x.
Proof.
  intros D. induction l as [|y l IH]; simpl; [reflexivity|].
  destruct (streq y modelId) eqn:E; simpl.
  - apply streq_true in E. subst y.
    assert (F : streq x modelId = false) by now apply streq_false.
    now rewrite F.
  - now rewrite IH.
Qed.

(** X2.  What a toggle does to the check boxes: the box of the toggled id flips,
    except that an unchecked box stays unchecked when five are checked; every
    other box keeps its state. *)
Theorem toggle_checkbox (modelId : jsstring) (prev : list jsstring) :
  includes (Page.toggle modelId prev) modelId
  = negb (includes prev modelId) && (List.length prev <? 5)%nat
  /\ forall id, id <> modelId ->
       includes (Page.toggle modelId prev) id = includes prev id.
Proof.
  unfold Page.toggle. destruct (includes prev modelId) eqn:I.
  - split.
    + simpl. apply includes_not_In. rewrite filter_In, streq_refl.
      simpl. intros [_ E]. discriminate.
    + intros id D. now apply includes_filter_other.
  - unfold Page.MAX_MODELS.
    destruct (Nat.leb_spec 5 (List.length prev)) as [G | G].
    + split.
      * rewrite I. simpl. symmetry. apply Nat.ltb_ge. exact G.
      * reflexivity.
    + split.
      * rewrite includes_app, I. simpl. rewrite streq_refl. simpl.
        symmetry. now apply Nat.ltb_lt.
      * intros id D. rewrite includes_app. simpl.
        assert (F : streq id modelId = false) by now apply streq_false.
        rewrite F. simpl. now rewrite orb_false_r.
Qed.

Lemma toggle_checkbox_witness :
  includes (Page.toggle (lit "model-e") Examples.four) (lit "model-b") = true.
Proof.
  destruct (toggle_checkbox (lit "model-e") Examples.four) as [_ H].
  rewrite H; [reflexivity | discriminate].
Defined.

(** ** More on submitting *)

Section SubmitFacts.

Variable Exn : Type.
Variable simulateEvaluation :
  list jsstring -> PromptPayload.t -> Exn + SimulationOutcome.t.

Local Abbreviation handleSubmit := (Page.handleSubmit simulateEvaluation).
Local Abbreviation run := (Page.run simulateEvaluation).

Lemma handleSubmit_accepted_error (st : Page.State) :
  accepts st -> Page.error (fst (handleSubmit st)) = None.
Proof.
  intros A. rewrite (handleSubmit_accepted Exn simulateEvaluation st A).
  simpl. now destruct (simulateEvaluation _ _).
Qed.

Lemma handleSubmit_no_prompt (st : Page.State) :
  (Page.MIN_MODELS <= List.length (Page.selected st) <= Page.MAX_MODELS)%nat ->
  trim (Page.promptText st) = [] ->
  handleSubmit st = (Page.setError (Some Page.msgNoPrompt) st, []).
Proof.
  intros [L1 L2] T. unfold Page.handleSubmit.
  destruct (Nat.ltb_spec (List.length (Page.selected st)) Page.MIN_MODELS);
    [lia|].
  destruct (Nat.ltb_spec Page.MAX_MODELS (List.length (Page.selected st)));
    [lia|].
  now rewrite T.
Qed.

(** X3.  The four ways a submission ends, by the message left in [error]: the
    "at least 4" message exactly for fewer than 4 selected ids, the "at most
    5" message exactly for more than 5, the prompt message exactly for 4 to 5
    ids with a blank prompt (so the size messages take precedence over it),
    and no message exactly when the submission went to the engine. *)
Theorem submit_error_table (st : Page.State) :
  let n := List.length (Page.selected st) in
  let err := Page.error (fst (handleSubmit st)) in
  (err = Some Page.msgTooFew <-> (n < 4)%nat)
  /\ (err = Some Page.msgTooMany <-> (5 < n)%nat)
  /\ (err = Some Page.msgNoPrompt
      <-> (4 <= n <= 5)%nat /\ trim (Page.promptText st) = [])
  /\ (err = None
      <-> (4 <= n <= 5)%nat /\ trim (Page.promptText st) <> []).
Proof.
  intros n err. subst err.
  assert (D1 : Page.msgTooFew <> Page.msgTooMany) by (vm_compute; discriminate).
  assert (D2 : Page.msgTooFew <> Page.msgNoPrompt) by (vm_compute; discriminate).
  assert (D3 : Page.msgTooMany <> Page.msgNoPrompt) by (vm_compute; discriminate).
  destruct (Nat.lt_ge_cases n 4) as [L | L].
  { rewrite (handleSubmit_too_few Exn simulateEvaluation st L). simpl.
    split; [tauto|]. split; [|split]; split; intros H;
      try discriminate; try (exfalso; lia);
      injection H as H'; congruence. }
  destruct (Nat.lt_ge_cases 5 n) as [M | M].
  { rewrite (handleSubmit_too_many Exn simulateEvaluation st M). simpl.
    split; [|split; [tauto|split]]; split; intros H;
      try discriminate; try (exfalso; lia);
      injection H as H'; congruence. }
  destruct (jsstring_eq_dec (trim (Page.promptText st)) []) as [T | T].
  { rewrite (handleSubmit_no_prompt st (conj L M) T). simpl.
    split; [|split; [|split; [tauto|]]]; split; intros H;
      try discriminate; try (exfalso; lia); try tauto;
      injection H as H'; congruence. }
  rewrite (handleSubmit_accepted_error st (conj (conj L M) T)).
  split; [|split; [|split; [|tauto]]]; split; intros H;
    try discriminate; try (exfalso; lia); tauto.
Qed.

Lemma handleSubmit_inputs (st : Page.State) :
  Page.selected (fst (handleSubmit st)) = Page.selected st
  /\ Page.promptText (fst (handleSubmit st)) = Page.promptText st
  /\ Page.imageAttachment (fst (handleSubmit st)) = Page.imageAttachment st.
Proof.
  unfold Page.handleSubmit.
  repeat match goal with
         | |- context [if ?c then _ else _] => destruct c
         end; try (simpl; tauto).
  destruct (simulateEvaluation _ _); simpl; tauto.
Qed.

Lemma handleSubmit_calls_inputs (st st' : Page.State) :
  Page.selected st' = Page.selected st ->
  Page.promptText st' = Page.promptText st ->
  Page.imageAttachment st' = Page.imageAttachment st ->
  snd (handleSubmit st') = snd (handleSubmit st).
Proof.
  intros S P I.
  assert (E : Page.promptPayload st' = Page.promptPayload st)
    by (unfold Page.promptPayload; now rewrite P, I).
  unfold Page.handleSubmit. rewrite S, P, E.
  repeat match goal with
         | |- context [if ?c then _ else _] => destruct c
         end; try reflexivity.
  now destruct (simulateEvaluation _ _).
Qed.

(** X4.  A submission leaves the form as it was: the selection, the prompt text
    and the attachment are kept, whether it was rejected, answered or
    thrown at; so submitting again, with nothing edited in between, hands the
    engine the same arguments. *)
Theorem resubmit_same_call (st : Page.State) :
  let st' := fst (handleSubmit st) in
  Page.selected st' = Page.selected st
  /\ Page.promptText st' = Page.promptText st
  /\ Page.imageAttachment st' = Page.imageAttachment st
  /\ snd (handleSubmit st') = snd (handleSubmit st).
Proof.
  intros st'. destruct (handleSubmit_inputs st) as (S & P & I).
  repeat split; try assumption.
  now apply handleSubmit_calls_inputs.
Qed.

(** X5.  With an engine that never throws, the page is never left in the
    processing state: after any sequence of events [processing] is false,
    and the submit button is enabled. *)
Theorem processing_never_stuck (es : list Page.Event) :
  (forall ids prompt, exists result,
      simulateEvaluation ids prompt = inr result) ->
  Page.processing (run es) = false.
Proof.
  intros Total. induction es as [|e es IH] using rev_ind; [reflexivity|].
  rewrite run_snoc. destruct e; simpl; try exact IH.
  - unfold Page.handleImageUpload. destruct file as [f|]; [|exact IH].
    now destruct (negb _).
  - unfold Page.onload. now destruct result.
  - unfold Page.handleSubmit.
    repeat match goal with
           | |- context [if ?c then _ else _] => destruct c
           end; try exact IH.
    destruct (Total (Page.selected (run es)) (Page.promptPayload (run es)))
      as (result & ->).
    reflexivity.
Qed.

End SubmitFacts.

Lemma processing_never_stuck_witness :
  (forall ids prompt, exists result, Samples.quietEngine ids prompt = inr result)
  /\ Page.processing
       (Page.run Samples.quietEngine
          (map Page.ToggleModel Examples.four
             ++ [Page.PromptChange (lit "hello"); Page.Submit; Page.Submit]))
     = false.
Proof.
  assert (T : forall ids prompt,
             exists result, Samples.quietEngine ids prompt = inr result)
    by (intros ids prompt; now exists Samples.emptyOutcome).
  split; [exact T|].
  apply (processing_never_stuck Empty_set Samples.quietEngine _ T).
Defined.

(** ** What the user can reach *)

Lemma toggle_In (modelId x : jsstring) (prev : list jsstring) :
  In x (Page.toggle modelId prev) -> x = modelId \/ In x prev.
Proof.
  unfold Page.toggle. destruct (includes prev modelId).
  - rewrite filter_In. tauto.
  - destruct (Page.MAX_MODELS <=? List.length prev)%nat; [tauto|].
    rewrite in_app_iff. simpl. intuition.
Qed.

Section ReachFacts.

Variable Exn : Type.
Variable simulateEvaluation :
  list jsstring -> PromptPayload.t -> Exn + SimulationOutcome.t.
Variable MODEL_OPTIONS : list Model.t.
Variable META_EVALUATOR_ID : jsstring.

Local Abbreviation handleSubmit := (Page.handleSubmit simulateEvaluation).
Local Abbreviation step := (Page.step simulateEvaluation).
Local Abbreviation reachable :=
  (UI.reachable simulateEvaluation MODEL_OPTIONS META_EVALUATOR_ID).
Local Abbreviation selectableIds :=
  (map Model.id (Page.selectableModels MODEL_OPTIONS META_EVALUATOR_ID)).

Lemma reachable_run (st : Page.State) :
  reachable st -> exists es, st = Page.run simulateEvaluation es.
Proof.
  induction 1 as [|st e R (es & ->) En].
  - now exists [].
  - exists (es ++ [e]). now rewrite run_snoc.
Qed.

Lemma selectableIds_not_meta : ~ In META_EVALUATOR_ID selectableIds.
Proof.
  rewrite in_map_iff. intros (model & E & I).
  unfold Page.selectableModels in I. apply filter_In in I.
  destruct I as [_ N]. rewrite E, streq_refl in N. discriminate.
Qed.

Lemma step_keeps_selected (st : Page.State) (e : Page.Event) :
  (forall modelId, e <> Page.ToggleModel modelId) ->
  Page.selected (step st e) = Page.selected st.
Proof.
  intros N. destruct e; simpl; try reflexivity.
  - now elim (N modelId).
  - unfold Page.handleImageUpload. destruct file as [f|]; [|reflexivity].
    now destruct (negb _).
  - unfold Page.onload. now destruct result.
  - apply (handleSubmit_inputs Exn simulateEvaluation st).
Qed.

Lemma reachable_selected_selectable (st : Page.State) :
  reachable st ->
  forall id, In id (Page.selected st) -> In id selectableIds.
Proof.
  induction 1 as [|st e R IH En]; [intros id []|].
  intros id H. destruct e as [modelId| | | | | |];
    try (rewrite step_keeps_selected in H by discriminate; now apply IH).
  simpl in H, En. apply toggle_In in H. destruct H as [-> | H].
  - now apply includes_In.
  - now apply IH.
Qed.

(** X6.  Through the check boxes of the page the selection only ever holds ids
    of selectable catalog models, pairwise distinct and at most 5; the
    meta-evaluator's id is never selected. *)
Theorem selection_within_catalog (st : Page.State) :
  reachable st ->
  NoDup (Page.selected st)
  /\ (List.length (Page.selected st) <= 5)%nat
  /\ (forall id, In id (Page.selected st) ->
        exists model,
          In model MODEL_OPTIONS /\ Model.id model = id
          /\ id <> META_EVALUATOR_ID)
  /\ ~ In META_EVALUATOR_ID (Page.selected st).
Proof.
  intros R. destruct (reachable_run st R) as (es & E).
  destruct (run_selection_invariant Exn simulateEvaluation es) as [ND L].
  rewrite <- E in ND, L.
  pose proof (reachable_selected_selectable st R) as S.
  repeat split; try assumption.
  - intros id H. apply S in H. apply in_map_iff in H.
    destruct H as (model & <- & I). exists model.
    unfold Page.selectableModels in I. apply filter_In in I.
    destruct I as [I N]. apply negb_true_iff, streq_false in N. auto.
  - intros H. apply S in H. now apply selectableIds_not_meta.
Qed.

(** X7.  Every call the page makes to the engine, from any state the user can
    reach, passes 4 or 5 pairwise distinct ids of selectable catalog models
    (so never the meta-evaluator's) and a prompt whose text is not empty. *)
Theorem engine_input_valid (st : Page.State) (ids : list jsstring)
    (prompt : PromptPayload.t) :
  reachable st ->
  In (ids, prompt) (snd (handleSubmit st)) ->
  (4 <= List.length ids <= 5)%nat
  /\ NoDup ids
  /\ (forall id, In id ids ->
        exists model,
          In model MODEL_OPTIONS /\ Model.id model = id
          /\ id <> META_EVALUATOR_ID)
  /\ PromptPayload.text prompt <> [].
Proof.
  intros R H.
  assert (A : accepts st).
  { apply (handleSubmit_calls Exn simulateEvaluation).
    intros E. now rewrite E in H. }
  rewrite (handleSubmit_accepted Exn simulateEvaluation st A) in H.
  assert (E : (ids, prompt) = (Page.selected st, Page.promptPayload st)).
  { simpl in H. destruct (simulateEvaluation _ _); simpl in H;
      destruct H as [H | []]; now symmetry. }
  injection E as -> ->.
  destruct (reachable_run st R) as (es & Es).
  destruct (run_selection_invariant Exn simulateEvaluation es) as [ND _].
  rewrite <- Es in ND.
  pose proof (reachable_selected_selectable st R) as S.
  destruct A as [L T]. repeat split; try assumption; try apply L.
  intros id I. apply S in I. apply in_map_iff in I.
  destruct I as (model & <- & I). exists model.
  unfold Page.selectableModels in I. apply filter_In in I.
  destruct I as [I N]. apply negb_true_iff, streq_false in N. auto.
Qed.

Lemma handleSubmit_choice (st : Page.State) :
  (Page.userChoice (fst (handleSubmit st)) = Page.userChoice st
   /\ Page.simulation (fst (handleSubmit st)) = Page.simulation st)
  \/ Page.userChoice (fst (handleSubmit st)) = None.
Proof.
  unfold Page.handleSubmit.
  repeat match goal with
         | |- context [if ?c then _ else _] => destruct c
         end; try (left; simpl; tauto).
  destruct (simulateEvaluation _ _); simpl; [left | right]; tauto.
Qed.

(** X8.  The user's choice always belongs to the simulation on display: in every
    state the user can reach, a chosen id is the [modelId] of a response of
    the stored simulation.  A choice made for an earlier simulation does not
    survive a new one. *)
Theorem choice_of_current_simulation (st : Page.State) (c : jsstring) :
  reachable st ->
  Page.userChoice st = Some c ->
  exists sim,
    Page.simulation st = Some sim
    /\ In c (map ModelResponse.modelId (SimulationOutcome.responses sim)).
Proof.
  intros R. revert c.
  induction R as [|st e R IH En]; [discriminate|].
  intros c. destruct e; simpl; try exact (IH c).
  - unfold Page.handleImageUpload. destruct file as [f|]; [|exact (IH c)].
    destruct (negb _); exact (IH c).
  - unfold Page.onload. destruct result; exact (IH c).
  - destruct (handleSubmit_choice st) as [[U S] | U]; rewrite U.
    + rewrite S. exact (IH c).
    + discriminate.
  - intros E. injection E as ->. simpl in En.
    destruct (Page.simulation st) as [sim|]; [|discriminate].
    exists sim. split; [reflexivity|]. now apply includes_In.
Qed.

End ReachFacts.

(** A session on the page: four models ticked, a prompt typed, submitted,
    one response chosen. *)
Lemma session_reachable :
  UI.reachable (Examples.engine Examples.env0) Examples.catalog Examples.metaId
    (Page.run (Examples.engine Examples.env0)
       (map Page.ToggleModel Examples.four
          ++ [Page.PromptChange (lit "Rank these"); Page.Submit;
              Page.Choose (lit "model-c")])).
Proof.
  unfold Page.run, Examples.four. cbn [map app fold_left].
  repeat (apply UI.reach_step; [|vm_compute; reflexivity]).
  apply UI.reach_initial.
Defined.

Lemma selection_within_catalog_witness :
  let st := Page.run (Examples.engine Examples.env0)
              (map Page.ToggleModel Examples.four
                 ++ [Page.PromptChange (lit "Rank these"); Page.Submit;
                     Page.Choose (lit "model-c")]) in
  UI.reachable (Examples.engine Examples.env0) Examples.catalog Examples.metaId st
  /\ ~ In Examples.metaId (Page.selected st).
Proof.
  intros st. split; [exact session_reachable|].
  apply (selection_within_catalog Engine.EngineError
           (Examples.engine Examples.env0) Examples.catalog Examples.metaId
           st session_reachable).
Defined.

Lemma choice_of_current_simulation_witness :
  let st := Page.run (Examples.engine Examples.env0)
              (map Page.ToggleModel Examples.four
                 ++ [Page.PromptChange (lit "Rank these"); Page.Submit;
                     Page.Choose (lit "model-c")]) in
  Page.userChoice st = Some (lit "model-c")
  /\ exists sim,
       Page.simulation st = Some sim
       /\ In (lit "model-c")
            (map ModelResponse.modelId (SimulationOutcome.responses sim)).
Proof.
  intros st. split; [reflexivity|].
  apply (choice_of_current_simulation Engine.EngineError
           (Examples.engine Examples.env0) Examples.catalog Examples.metaId
           st (lit "model-c") session_reachable).
  reflexivity.
Defined.

Lemma engine_input_valid_witness :
  let st := Page.run (Examples.engine Examples.env0)
              (map Page.ToggleModel Examples.four
                 ++ [Page.PromptChange (lit "Rank these"); Page.Submit;
                     Page.Choose (lit "model-c")]) in
  In (Examples.four, Page.promptPayload st)
    (snd (Page.handleSubmit (Examples.engine Examples.env0) st))
  /\ NoDup Examples.four.
Proof.
  intros st.
  assert (I : In (Examples.four, Page.promptPayload st)
                (snd (Page.handleSubmit (Examples.engine Examples.env0) st)))
    by (vm_compute; left; reflexivity).
  split; [exact I|].
  apply (engine_input_valid Engine.EngineError
           (Examples.engine Examples.env0) Examples.catalog Examples.metaId
           st Examples.four (Page.promptPayload st) session_reachable I).
Defined.

(** ** The prompt text and the attachment *)

Lemma trimEnd_prefix (t : jsstring) :
  exists post, t = trimEnd t ++ post /\ forallb isWhiteSpace post = true.
Proof.
  unfold trimEnd. destruct (trimStart_suffix (rev t)) as (pre & E & W).
  exists (rev pre). split.
  - rewrite <- rev_app_distr, <- E. symmetry. apply rev_involutive.
  - now rewrite forallb_rev.
Qed.

Lemma trim_decompose (s : jsstring) :
  exists pre post,
    s = pre ++ trim s ++ post
    /\ forallb isWhiteSpace pre = true /\ forallb isWhiteSpace post = true.
Proof.
  destruct (trimStart_suffix s) as (pre & E & W).
  destruct (trimEnd_prefix (trimStart s)) as (post & E' & W').
  exists pre, post. unfold trim. rewrite <- E'. auto.
Qed.

Lemma trim_first (s : jsstring) (c : N) (r : jsstring) :
  trim s = c :: r -> isWhiteSpace c = false.
Proof.
  unfold trim. intros E.
  destruct (trimEnd_prefix (trimStart s)) as (post & E' & _).
  rewrite E in E'. simpl in E'. now apply trimStart_head in E'.
Qed.

Lemma trim_last (s : jsstring) :
  trim s <> [] -> exists r c, trim s = r ++ [c] /\ isWhiteSpace c = false.
Proof.
  unfold trim, trimEnd. intros N.
  destruct (trimStart (rev (trimStart s))) as [|c r] eqn:E; [now elim N|].
  exists (rev r), c. split; [reflexivity|]. now apply trimStart_head in E.
Qed.

Section PayloadFacts.

Variable Exn : Type.
Variable simulateEvaluation :
  list jsstring -> PromptPayload.t -> Exn + SimulationOutcome.t.

Local Abbreviation handleSubmit := (Page.handleSubmit simulateEvaluation).

Lemma handleSubmit_call (st : Page.State) (ids : list jsstring)
    (prompt : PromptPayload.t) :
  In (ids, prompt) (snd (handleSubmit st)) ->
  accepts st /\ ids = Page.selected st /\ prompt = Page.promptPayload st.
Proof.
  intros H.
  assert (A : accepts st).
  { apply (handleSubmit_calls Exn simulateEvaluation).
    intros E. now rewrite E in H. }
  rewrite (handleSubmit_accepted Exn simulateEvaluation st A) in H.
  split; [exact A|]. simpl in H.
  destruct (simulateEvaluation _ _); simpl in H; destruct H as [H | []];
    injection H as <- <-; auto.
Qed.

(** X9.  The text handed to the engine is the typed prompt without its leading
    and trailing white space and nothing else removed: the prompt is white
    space, then the text, then white space, and the text begins and ends
    with a code unit that is not white space. *)
Theorem payload_text_shape (st : Page.State) (ids : list jsstring)
    (prompt : PromptPayload.t) :
  In (ids, prompt) (snd (handleSubmit st)) ->
  (exists pre post,
     Page.promptText st = pre ++ PromptPayload.text prompt ++ post
     /\ forallb isWhiteSpace pre = true /\ forallb isWhiteSpace post = true)
  /\ (exists c r, PromptPayload.text prompt = c :: r /\ isWhiteSpace c = false)
  /\ (exists r c, PromptPayload.text prompt = r ++ [c] /\ isWhiteSpace c = false).
Proof.
  intros H. destruct (handleSubmit_call st ids prompt H) as ([_ T] & _ & ->).
  simpl. split; [apply trim_decompose|]. split.
  - destruct (trim (Page.promptText st)) as [|c r] eqn:E; [now elim T|].
    exists c, r. split; [reflexivity|]. exact (trim_first _ _ _ E).
  - now apply trim_last.
Qed.

(** X10.  Attaching and removing an image.  A file whose type starts with
    "image/" changes nothing until its read completes; the completed read
    stores the file's name with the data URL and clears the error; a
    submission accepted then is multimodal and carries both; after Remove
    the same submission is text-only and carries neither. *)
Theorem attach_then_submit (st : Page.State) (file : File.t)
    (dataUrl : jsstring) :
  startsWith (File.type file) (lit "image/") = true ->
  accepts st ->
  Page.handleImageUpload (Some file) st = (st, Some file)
  /\ let st' := Page.onload file (Some dataUrl) st in
     Page.error st' = None
     /\ snd (handleSubmit st')
        = [(Page.selected st,
            {| PromptPayload.text := trim (Page.promptText st);
               PromptPayload.imageFileName := Some (File.name file);
               PromptPayload.imageDataUrl := Some dataUrl;
               PromptPayload.modality := ModMultimodal |})]
     /\ snd (handleSubmit (Page.resetAttachment st'))
        = [(Page.selected st,
            {| PromptPayload.text := trim (Page.promptText st);
               PromptPayload.imageFileName := None;
               PromptPayload.imageDataUrl := None;
               PromptPayload.modality := ModText |})].
Proof.
  intros I A. split.
  - unfold Page.handleImageUpload. now rewrite I.
  - intros st'. split; [reflexivity|]. split.
    + assert (A' : accepts st') by exact A.
      rewrite (handleSubmit_accepted Exn simulateEvaluation st' A').
      simpl. now destruct (simulateEvaluation _ _).
    + assert (A' : accepts (Page.resetAttachment st')) by exact A.
      rewrite (handleSubmit_accepted Exn simulateEvaluation _ A').
      simpl. now destruct (simulateEvaluation _ _).
Qed.

(** X11.  A file of another type is refused: the error message is set, no read is
    started, and the attachment already in place stays, so a later accepted
    submission still carries the earlier image. *)
Theorem refused_file_keeps_attachment (st : Page.State) (file : File.t) :
  startsWith (File.type file) (lit "image/") = false ->
  let st' := fst (Page.handleImageUpload (Some file) st) in
  snd (Page.handleImageUpload (Some file) st) = None
  /\ Page.error st' = Some Page.msgImageOnly
  /\ Page.imageAttachment st' = Page.imageAttachment st
  /\ snd (handleSubmit st') = snd (handleSubmit st).
Proof.
  intros I st'. subst st'. unfold Page.handleImageUpload. rewrite I. simpl.
  repeat split.
Qed.

End PayloadFacts.

Lemma payload_text_shape_witness :
  In (Examples.four, Page.promptPayload Examples.stReady)
    (snd (Page.handleSubmit (Examples.engine Examples.env0) Examples.stReady))
  /\ exists pre post,
       Page.promptText Examples.stReady
       = pre ++ lit "Summarize quarterly earnings" ++ post
       /\ forallb isWhiteSpace pre = true /\ forallb isWhiteSpace post = true.
Proof.
  assert (I : In (Examples.four, Page.promptPayload Examples.stReady)
                (snd (Page.handleSubmit (Examples.engine Examples.env0)
                        Examples.stReady)))
    by (vm_compute; left; reflexivity).
  split; [exact I|].
  apply (payload_text_shape Engine.EngineError (Examples.engine Examples.env0)
           Examples.stReady Examples.four
           (Page.promptPayload Examples.stReady) I).
Defined.

Lemma attach_then_submit_witness :
  startsWith (File.type Samples.photo) (lit "image/") = true
  /\ accepts Examples.stTieReady
  /\ Page.handleImageUpload (Some Samples.photo) Examples.stTieReady
     = (Examples.stTieReady, Some Samples.photo).
Proof.
  assert (A : accepts Examples.stTieReady)
    by (split; [vm_compute; lia | vm_compute; discriminate]).
  split; [reflexivity|]. split; [exact A|].
  apply (attach_then_submit Engine.EngineError (Examples.engine Examples.env0)
           Examples.stTieReady Samples.photo (lit "data:image/png;base64,AA")
           eq_refl A).
Defined.

Lemma refused_file_keeps_attachment_witness :
  startsWith (lit "text/plain") (lit "image/") = false
  /\ Page.imageAttachment
       (fst (Page.handleImageUpload
               (Some {| File.name := lit "notes.txt";
                        File.type := lit "text/plain" |})
               Examples.stReady))
     = Some Examples.chart.
Proof.
  split; [reflexivity|].
  destruct (refused_file_keeps_attachment Engine.EngineError
              (Examples.engine Examples.env0) Examples.stReady
              {| File.name := lit "notes.txt"; File.type := lit "text/plain" |}
              eq_refl) as (_ & _ & K & _).
  exact K.
Defined.

(** ** More on the leaderboard *)

Section SortedInput.

Variable A : Type.
Variable key : A -> Q.

Local Abbreviation desc := (fun a b : A => key b - key a).
Local Abbreviation geq := (fun a b : A => key b <= key a).

Lemma insert_front (x : A) (l : list A) :
  Forall (geq x) l -> insert desc x l = x :: l.
Proof.
  intros F. destruct l as [|y l]; [reflexivity|]. simpl.
  destruct (Qlt_le_dec 0 (key y - key x)) as [Lt | Le]; [|reflexivity].
  inversion F as [|? ? G _]. simpl in G. exfalso. lra.
Qed.

Lemma sort_fixed (l : list A) : StronglySorted geq l -> sort desc l = l.
Proof.
  induction 1 as [|x l S IH F]; [reflexivity|].
  cbn [sort fold_right]. fold (sort desc l). rewrite IH.
  now apply insert_front.
Qed.

End SortedInput.

(** X12.  The leaderboard shows the aggregates in exactly the order the engine
    returned them if, and only if, that order is already non-increasing in
    [overall]; whatever order the engine gave to entries of equal [overall]
    is then shown as it is. *)
Theorem leaderboard_keeps_ranked_input (st : Page.State)
    (sim : SimulationOutcome.t) :
  Page.simulation st = Some sim ->
  (Page.leaderboard st = SimulationOutcome.aggregates sim
   <-> StronglySorted byOverall (SimulationOutcome.aggregates sim)).
Proof.
  intros E. unfold Page.leaderboard. rewrite E. split.
  - intros H. rewrite <- H. apply (sort_sorted _ AggregatedScore.overall).
  - apply (sort_fixed _ AggregatedScore.overall).
Qed.

Lemma leaderboard_keeps_ranked_input_witness :
  Page.simulation Samples.stOdd = Some Samples.simOdd
  /\ Page.leaderboard Samples.stOdd
     = SimulationOutcome.aggregates Samples.simOdd.
Proof.
  split; [reflexivity|].
  apply (leaderboard_keeps_ranked_input Samples.stOdd Samples.simOdd eq_refl).
  simpl.
  repeat first [ apply SSorted_nil | apply SSorted_cons
               | apply Forall_nil | apply Forall_cons ];
    vm_compute; discriminate.
Defined.

Lemma firstn_member (B : Type) (n : nat) (l : list B) (x : B) :
  In x (firstn n l) -> In x l.
Proof.
  revert l. induction n as [|n IH]; intros [|y l]; simpl; try tauto.
  intros [E | H]; [now left | right; now apply IH].
Qed.

Lemma mapi_from_ranks (f : AggregatedScore.t -> nat -> View.LeaderboardRow)
    (i : nat) (l : list AggregatedScore.t) :
  (forall x n, View.lrRank (f x n) = (n + 1)%nat) ->
  map View.lrRank (View.mapi_from f i l) = seq (i + 1) (List.length l).
Proof.
  intros R. revert i. induction l as [|x l IH]; intros i; simpl; [reflexivity|].
  rewrite R. f_equal. rewrite IH. f_equal.
Qed.

Lemma mapi_from_keys (f : AggregatedScore.t -> nat -> View.LeaderboardRow)
    (i : nat) (l : list AggregatedScore.t) :
  (forall x n, View.lrKey (f x n) = AggregatedScore.modelId x) ->
  map View.lrKey (View.mapi_from f i l) = map AggregatedScore.modelId l.
Proof.
  intros K. revert i. induction l as [|x l IH]; intros i; simpl; [reflexivity|].
  now rewrite K, IH.
Qed.

Lemma find_id_none (B : Type) (f : B -> jsstring) (id : jsstring) (l : list B) :
  find (fun item => streq (f item) id) l = None <-> ~ In id (map f l).
Proof.
  induction l as [|x l IH]; simpl; [tauto|].
  destruct (streq (f x) id) eqn:E.
  - apply streq_true in E. split; [discriminate | intros H; elim H; auto].
  - apply streq_false in E. rewrite IH. tauto.
Qed.

Lemma find_rev_last (B : Type) (p : B -> bool) (l : list B) (a : B) :
  find p (rev l) = Some a ->
  exists pre post,
    l = pre ++ a :: post /\ p a = true /\ forall x, In x post -> p x = false.
Proof.
  induction l as [|x l IH] using rev_ind; [discriminate|].
  rewrite rev_app_distr. simpl. destruct (p x) eqn:Px.
  - intros E. injection E as <-. exists l, []. repeat split; auto.
    intros y [].
  - intros E. destruct (IH E) as (pre & post & -> & Pa & F).
    exists pre, (post ++ [x]). rewrite <- app_assoc. repeat split; auto.
    intros y Hy. apply in_app_or in Hy. destruct Hy as [Hy | [<- | []]]; auto.
Qed.

Lemma checked_count (c : jsstring) (l : list ModelResponse.t) :
  NoDup (map ModelResponse.modelId l) ->
  List.length (filter (fun r => streq c (ModelResponse.modelId r)) l)
  = if includes (map ModelResponse.modelId l) c then 1%nat else 0%nat.
Proof.
  induction l as [|x l IH]; simpl; [reflexivity|].
  intros ND. inversion ND as [|? ? Hx Hl]. subst. specialize (IH Hl).
  destruct (streq c (ModelResponse.modelId x)) eqn:E; simpl.
  - apply streq_true in E. subst c. rewrite IH.
    apply includes_not_In in Hx. now rewrite Hx.
  - exact IH.
Qed.

Section ViewFacts.

Variable META_EVALUATOR_ID : jsstring.
Variable getModelById : jsstring -> option Model.t.
Variable toFixed : Q -> nat -> jsstring.
Variable numberToString : Q -> jsstring.

Local Abbreviation leaderboardRows := (View.leaderboardRows getModelById toFixed).
Local Abbreviation renderResponseCard :=
  (View.renderResponseCard getModelById toFixed numberToString).
Local Abbreviation renderPeerNote :=
  (View.renderPeerNote getModelById toFixed numberToString).
Local Abbreviation responseCards :=
  (View.responseCards getModelById toFixed numberToString).
Local Abbreviation renderRankCard := (View.renderRankCard getModelById toFixed).
Local Abbreviation renderRadio := (View.renderRadio getModelById toFixed).

(** X13.  The leaderboard table numbers its rows 1, 2, ..., one per aggregate, in
    leaderboard order: no rank is skipped or shared, also between rows of
    equal [overall]. *)
Theorem leaderboard_ranks (st : Page.State) (sim : SimulationOutcome.t) :
  Page.simulation st = Some sim ->
  map View.lrRank (leaderboardRows st)
  = seq 1 (List.length (SimulationOutcome.aggregates sim))
  /\ map View.lrKey (leaderboardRows st)
     = map AggregatedScore.modelId (Page.leaderboard st).
Proof.
  intros E. unfold View.leaderboardRows, View.mapi. split.
  - rewrite mapi_from_ranks by reflexivity. simpl. f_equal.
    unfold Page.leaderboard. rewrite E. apply sort_length.
  - now rewrite mapi_from_keys.
Qed.

(** X14.  The peer notes of a response card are the first three cross-evaluations
    that target the card's model, in the order of [crossEvaluations]: never
    more than three, fewer only when fewer exist, none of another target. *)
Theorem peer_notes_first_three (st : Page.State) (sim : SimulationOutcome.t)
    (response : ModelResponse.t) (aggregate : AggregatedScore.t) :
  Page.simulation st = Some sim ->
  let incoming :=
    filter
      (fun e => streq (CrossEvaluation.targetModelId e)
                  (ModelResponse.modelId response))
      (SimulationOutcome.crossEvaluations sim) in
  let notes := View.rcPeerNotes (renderResponseCard st response aggregate) in
  notes = map renderPeerNote (firstn 3 incoming)
  /\ List.length notes = Nat.min 3 (List.length incoming)
  /\ (forall e, In e (firstn 3 incoming) ->
        In e (SimulationOutcome.crossEvaluations sim)
        /\ CrossEvaluation.targetModelId e = ModelResponse.modelId response).
Proof.
  intros E incoming notes.
  assert (N : notes = map renderPeerNote (firstn 3 incoming)).
  { subst notes incoming. unfold View.renderResponseCard.
    cbn [View.rcPeerNotes]. unfold Page.crossEvaluationsByModel.
    rewrite E. reflexivity. }
  split; [exact N|]. split.
  - rewrite N, length_map. apply length_firstn.
  - intros e H. apply firstn_member in H. subst incoming.
    apply filter_In in H. destruct H as [I T].
    apply streq_true in T. split; assumption.
Qed.

(** X15.  The response grid has a card for a response exactly when its model id
    has an aggregate in [aggregates] or in [topThree]; the card shows the
    first match in [aggregates] and, only without one, the last match in
    [topThree]. *)
Theorem response_card_aggregate (st : Page.State) (sim : SimulationOutcome.t)
    (i : nat) (response : ModelResponse.t) :
  nth_error (SimulationOutcome.responses sim) i = Some response ->
  let id := ModelResponse.modelId response in
  (nth_error (responseCards st sim) i = Some None
   <-> ~ In id (map AggregatedScore.modelId (SimulationOutcome.aggregates sim))
       /\ ~ In id (map AggregatedScore.modelId (SimulationOutcome.topThree sim)))
  /\ (forall a,
        find (fun item => streq (AggregatedScore.modelId item) id)
          (SimulationOutcome.aggregates sim) = Some a ->
        nth_error (responseCards st sim) i
        = Some (Some (renderResponseCard st response a)))
  /\ (forall a,
        ~ In id (map AggregatedScore.modelId (SimulationOutcome.aggregates sim)) ->
        View.topThreeMap_get sim id = Some a ->
        nth_error (responseCards st sim) i
        = Some (Some (renderResponseCard st response a))
        /\ exists pre post,
             SimulationOutcome.topThree sim = pre ++ a :: post
             /\ AggregatedScore.modelId a = id
             /\ ~ In id (map AggregatedScore.modelId post)).
Proof.
  intros H id. unfold View.responseCards. rewrite nth_error_map, H. simpl.
  fold id. unfold View.findAggregate.
  pose proof (find_id_none _ AggregatedScore.modelId id
                (SimulationOutcome.aggregates sim)) as FA.
  split; [|split].
  - destruct (find _ (SimulationOutcome.aggregates sim)) as [a|].
    + simpl. split; [discriminate|]. intros [N _]. apply FA in N. discriminate.
    + unfold View.topThreeMap_get.
      pose proof (find_id_none _ AggregatedScore.modelId id
                    (rev (SimulationOutcome.topThree sim))) as FT.
      rewrite map_rev, <- in_rev in FT.
      destruct (find _ (rev (SimulationOutcome.topThree sim))) as [a|].
      * simpl. split; [discriminate|]. intros [_ N]. apply FT in N.
        discriminate.
      * simpl. split; [|reflexivity]. intros _. split; [now apply FA|].
        now apply FT.
  - intros a F. now rewrite F.
  - intros a N G. apply FA in N. rewrite N, G. split; [reflexivity|].
    unfold View.topThreeMap_get in G.
    destruct (find_rev_last _ _ _ _ G) as (pre & post & E & Pa & F).
    exists pre, post. split; [exact E|]. split; [now apply streq_true|].
    rewrite in_map_iff. intros (x & Ex & Ix). specialize (F x Ix).
    rewrite Ex, streq_refl in F. discriminate.
Qed.


Lemma filter_checked (st : Page.State) (sim : SimulationOutcome.t)
    (c : jsstring) (l : list ModelResponse.t) :
  Page.userChoice st = Some c ->
  List.length (filter View.riChecked (map (renderRadio st sim) l))
  = List.length (filter (fun r => streq c (ModelResponse.modelId r)) l).
Proof.
  intros U. induction l as [|x l IH]; simpl; [reflexivity|].
  rewrite U. destruct (streq c (ModelResponse.modelId x)); simpl; now rewrite IH.
Qed.

(** X17.  The radio list of "Your manual verdict": an item is checked exactly
    when its response is the chosen one; with pairwise distinct response ids
    exactly one item is checked once the user has chosen one of them, and
    none before any choice. *)
Theorem radio_checked (st : Page.State) (sim : SimulationOutcome.t) :
  NoDup (map ModelResponse.modelId (SimulationOutcome.responses sim)) ->
  let radios := map (renderRadio st sim) (SimulationOutcome.responses sim) in
  (forall item, In item radios ->
     (View.riChecked item = true
      <-> Page.userChoice st = Some (View.riValue item)))
  /\ (Page.userChoice st = None -> filter View.riChecked radios = [])
  /\ (forall c, Page.userChoice st = Some c ->
        In c (map ModelResponse.modelId (SimulationOutcome.responses sim)) ->
        List.length (filter View.riChecked radios) = 1%nat).
Proof.
  intros ND radios. split; [|split].
  - intros item I. apply in_map_iff in I. destruct I as (r & <- & _).
    simpl. destruct (Page.userChoice st) as [c|].
    + rewrite streq_true. split; [now intros -> | intros E; now injection E].
    + split; discriminate.
  - intros U. subst radios.
    induction (SimulationOutcome.responses sim) as [|x l IH]; [reflexivity|].
    simpl. rewrite U. apply IH. now inversion ND.
  - intros c U I. subst radios. rewrite (filter_checked st sim c _ U).
    rewrite (checked_count c _ ND). apply includes_In in I. now rewrite I.
Qed.

End ViewFacts.

(** *** The view properties on a sample outcome *)

Lemma leaderboard_ranks_witness :
  Page.simulation Samples.stOdd = Some Samples.simOdd
  /\ map View.lrRank
       (View.leaderboardRows Examples.catalogLookup Examples.showFixed
          Samples.stOdd)
     = [1; 2; 3]%nat.
Proof.
  split; [reflexivity|].
  destruct (leaderboard_ranks Examples.catalogLookup Examples.showFixed
              Samples.stOdd Samples.simOdd eq_refl) as [R _].
  rewrite R. reflexivity.
Defined.

Lemma peer_notes_first_three_witness :
  Page.simulation Samples.stOdd = Some Samples.simOdd
  /\ List.length
       (View.rcPeerNotes
          (View.renderResponseCard Examples.catalogLookup Examples.showFixed
             (fun q => Examples.showFixed q 0) Samples.stOdd
             (Samples.resp "model-a") (Samples.agg "model-a" 9)))
     = 3%nat.
Proof.
  split; [reflexivity|].
  destruct (peer_notes_first_three Examples.catalogLookup Examples.showFixed
              (fun q => Examples.showFixed q 0) Samples.stOdd Samples.simOdd
              (Samples.resp "model-a") (Samples.agg "model-a" 9) eq_refl)
    as (_ & L & _).
  rewrite L. reflexivity.
Defined.

Lemma response_card_aggregate_witness :
  nth_error (SimulationOutcome.responses Samples.simOdd) 3
  = Some (Samples.resp "model-d")
  /\ nth_error
       (View.responseCards Examples.catalogLookup Examples.showFixed
          (fun q => Examples.showFixed q 0) Samples.stOdd Samples.simOdd) 3
     = Some None
  /\ nth_error
       (View.responseCards Examples.catalogLookup Examples.showFixed
          (fun q => Examples.showFixed q 0) Samples.stOdd Samples.simOdd) 4
     = Some (Some (View.renderResponseCard Examples.catalogLookup
                     Examples.showFixed (fun q => Examples.showFixed q 0)
                     Samples.stOdd (Samples.resp "model-e")
                     (Samples.agg "model-e" 4))).
Proof.
  split; [reflexivity|]. split.
  - destruct (response_card_aggregate Examples.catalogLookup
                Examples.showFixed (fun q => Examples.showFixed q 0)
                Samples.stOdd Samples.simOdd 3 (Samples.resp "model-d")
                eq_refl) as (H & _).
    apply H. split; apply includes_not_In; reflexivity.
  - destruct (response_card_aggregate Examples.catalogLookup
                Examples.showFixed (fun q => Examples.showFixed q 0)
                Samples.stOdd Samples.simOdd 4 (Samples.resp "model-e")
                eq_refl) as (_ & _ & H).
    apply (H (Samples.agg "model-e" 4)); [|reflexivity].
    apply includes_not_In. reflexivity.
Defined.


Lemma radio_checked_witness :
  NoDup (map ModelResponse.modelId (SimulationOutcome.responses Samples.simOdd))
  /\ List.length
       (filter View.riChecked
          (map (View.renderRadio Examples.catalogLookup Examples.showFixed
                  Samples.stOdd Samples.simOdd)
             (SimulationOutcome.responses Samples.simOdd)))
     = 1%nat.
Proof.
  assert (ND : NoDup (map ModelResponse.modelId
                        (SimulationOutcome.responses Samples.simOdd)))
    by (apply hasDuplicates_false; reflexivity).
  split; [exact ND|].
  destruct (radio_checked Examples.catalogLookup Examples.showFixed
              Samples.stOdd Samples.simOdd ND) as (_ & _ & H).
  apply (H (lit "model-b")); [reflexivity|].
  apply includes_In. reflexivity.
Defined.

(** ** The check boxes and the selection *)

Lemma NoDup_map_filter (B : Type) (f : B -> jsstring) (p : B -> bool)
    (l : list B) :
  NoDup (map f l) -> NoDup (map f (filter p l)).
Proof.
  induction l as [|x l IH]; simpl; [constructor|].
  intros ND. inversion ND as [|? ? Hx Hl]. subst.
  destruct (p x); simpl; [|now apply IH].
  constructor; [|now apply IH].
  rewrite in_map_iff. intros (y & E & I). apply filter_In in I.
  apply Hx. rewrite <- E. apply in_map. tauto.
Qed.

Lemma filter_map_length (B C : Type) (g : B -> C) (p : C -> bool)
    (l : list B) :
  List.length (filter p (map g l))
  = List.length (filter (fun x => p (g x)) l).
Proof.
  induction l as [|x l IH]; simpl; [reflexivity|].
  destruct (p (g x)); simpl; now rewrite IH.
Qed.

Lemma filter_selected_length (sel ids : list jsstring) :
  NoDup ids -> NoDup sel -> incl sel ids ->
  List.length (filter (includes sel) ids) = List.length sel.
Proof.
  intros NI NS I. apply Permutation_length. apply NoDup_Permutation.
  - now apply NoDup_filter.
  - exact NS.
  - intros x. rewrite filter_In, includes_In. split; [tauto|].
    intros H. split; [now apply I | exact H].
Qed.

Section CheckboxFacts.

Variable Exn : Type.
Variable simulateEvaluation :
  list jsstring -> PromptPayload.t -> Exn + SimulationOutcome.t.
Variable MODEL_OPTIONS : list Model.t.
Variable META_EVALUATOR_ID : jsstring.

Local Abbreviation reachable :=
  (UI.reachable simulateEvaluation MODEL_OPTIONS META_EVALUATOR_ID).
Local Abbreviation modelCards :=
  (View.modelCards MODEL_OPTIONS META_EVALUATOR_ID).

(** X18.  With pairwise distinct catalog ids, the check boxes shown as ticked are
    as many as the selection is long, in every state the user can reach: the
    "n selected" badge and the size test of [handleSubmit] count what the
    user sees ticked. *)
Theorem ticked_boxes_count (st : Page.State) :
  NoDup (map Model.id MODEL_OPTIONS) ->
  reachable st ->
  List.length (filter View.mcChecked (modelCards st))
  = List.length (Page.selected st).
Proof.
  intros NC R. unfold View.modelCards.
  rewrite filter_map_length. cbn [View.mcChecked].
  rewrite <- (filter_map_length _ _ Model.id (includes (Page.selected st))).
  apply filter_selected_length.
  - unfold Page.selectableModels. now apply NoDup_map_filter.
  - destruct (reachable_run Exn simulateEvaluation MODEL_OPTIONS
                META_EVALUATOR_ID st R) as (es & ->).
    apply (run_selection_invariant Exn simulateEvaluation es).
  - intros id. apply (reachable_selected_selectable Exn simulateEvaluation
                        MODEL_OPTIONS META_EVALUATOR_ID st R).
Qed.

End CheckboxFacts.

Lemma ticked_boxes_count_witness :
  let st := Page.run (Examples.engine Examples.env0)
              (map Page.ToggleModel Examples.four
                 ++ [Page.PromptChange (lit "Rank these"); Page.Submit;
                     Page.Choose (lit "model-c")]) in
  NoDup (map Model.id Examples.catalog)
  /\ List.length
       (filter View.mcChecked
          (View.modelCards Examples.catalog Examples.metaId st))
     = 4%nat.
Proof.
  intros st.
  assert (ND : NoDup (map Model.id Examples.catalog))
    by (apply hasDuplicates_false; reflexivity).
  split; [exact ND|].
  rewrite (ticked_boxes_count Engine.EngineError
             (Examples.engine Examples.env0) Examples.catalog Examples.metaId
             st ND session_reachable).
  reflexivity.
Defined.
